(** * e_learn: the scoring-and-roadmap pipeline of [backend/model_utils.py]
      and [backend/main.py], embedded in Rocq.

    Python values are modelled as the code uses them: integers as [Z], lists
    as [list] with Python's subscript rule (negative subscripts count from the
    end, anything else out of range raises [IndexError]), dictionaries with a
    fixed set of keys as records, free-form JSON as an ordered association
    tree, exceptions as a sum type carried by [result], and the process
    environment, the outbound HTTP traffic, the console and the results table
    as an explicit [World] that is passed along. *)

From Stdlib Require Import ZArith QArith.
From stdpp Require Import base option list strings gmap pretty.

Set Warnings "-register-all".
Local Open Scope string_scope.
Local Open Scope list_scope.
Local Open Scope Z_scope.

(** ** Python runtime *)

Module Py.

(** Exceptions that the embedded code raises itself or receives from the
    libraries it calls; [str(e)] is the carried text. *)
Inductive exn : Type :=
| IndexError (msg : string)
| ValueError (msg : string)
| TypeError (msg : string)
| AttributeError (msg : string)
| HTTPException (status_code : Z) (detail : string)
| LibraryError (msg : string).

Definition str_exn (e : exn) : string :=
  match e with
  | IndexError m | ValueError m | TypeError m | AttributeError m
  | LibraryError m => m
  | HTTPException _ d => d
  end.

Inductive result (A : Type) : Type :=
| Ok (a : A)
| Raise (e : exn).
Global Arguments Ok {A} a.
Global Arguments Raise {A} e.

Global Instance result_ret : MRet result := fun A a => Ok a.
Global Instance result_bind : MBind result := fun A B f m =>
  match m with
  | Ok a => f a
  | Raise e => Raise e
  end.

Definition is_ok {A} (r : result A) : bool :=
  match r with Ok _ => true | Raise _ => false end.

(** [try: return body  except Exception as e: return handler e]. *)
Definition try_return {A} (body : result A) (handler : exn -> A) : A :=
  match body with
  | Ok a => a
  | Raise e => handler e
  end.

(** Statements over local variables [S]: the locals after the statement
    and the exception that left it, if any.  An exception keeps the
    assignments made before it. *)
Definition Stmt (S : Type) : Type := S -> S * option exn.

Definition skip {S} : Stmt S := fun l => (l, None).

Definition assign {S} (f : S -> S) : Stmt S := fun l => (f l, None).

Definition seq {S} (s1 s2 : Stmt S) : Stmt S := fun l =>
  match s1 l with
  | (l1, None) => s2 l1
  | (l1, Some e) => (l1, Some e)
  end.

(** Evaluate an expression, then run the statement that uses its value. *)
Definition eval {S A} (r : result A) (k : A -> Stmt S) : Stmt S := fun l =>
  match r with
  | Ok a => k a l
  | Raise e => (l, Some e)
  end.

Definition len {A} (l : list A) : Z := Z.of_nat (length l).

(** [l[i]]: a negative subscript is first shifted by [len(l)]. *)
Definition index {A} (l : list A) (i : Z) : result A :=
  let j := if i <? 0 then i + len l else i in
  if (j <? 0) || (len l <=? j) then Raise (IndexError "list index out of range")
  else match l !! Z.to_nat j with
       | Some x => Ok x
       | None => Raise (IndexError "list index out of range")
       end.

(** [max(l)] on a list of integers: the first of the largest elements. *)
Fixpoint max_from (best : Z) (l : list Z) : Z :=
  match l with
  | [] => best
  | x :: rest => max_from (if best <? x then x else best) rest
  end.

Definition max (l : list Z) : result Z :=
  match l with
  | [] => Raise (ValueError "max() arg is an empty sequence")
  | x :: rest => Ok (max_from x rest)
  end.

(** [l.index(v)]: position of the first element equal to [v]. *)
Fixpoint index_from (pos : Z) (v : Z) (l : list Z) : result Z :=
  match l with
  | [] => Raise (ValueError (pretty v +:+ " is not in list"))
  | x :: rest => if x =? v then Ok pos else index_from (pos + 1) v rest
  end.

Definition list_index (l : list Z) (v : Z) : result Z := index_from 0 v l.

(** [zip(a, b)] stops at the shorter argument. *)
Definition zip {A B} (a : list A) (b : list B) : list (A * B) :=
  zip_with pair a b.

(** [enumerate(l)]. *)
Fixpoint enumerate_from {A} (i : Z) (l : list A) : list (Z * A) :=
  match l with
  | [] => []
  | x :: rest => (i, x) :: enumerate_from (i + 1) rest
  end.

Definition enumerate {A} (l : list A) : list (Z * A) := enumerate_from 0 l.

(** [str(x)] of a list whose elements are already rendered. *)
Definition str_list (elems : list string) : string :=
  "[" +:+ String.concat ", " elems +:+ "]".

End Py.
Import Py.

(** ** JSON values, as [json.loads] produces them and [return {...}] builds
    them.  Objects keep their keys in insertion order. *)

Inductive json : Type :=
| JNull
| JBool (b : bool)
| JInt (n : Z)
| JFloat (q : Q)
| JStr (s : string)
| JArr (items : list json)
| JObj (fields : list (string * json)).

Fixpoint assoc {V} (k : string) (fields : list (string * V)) : option V :=
  match fields with
  | [] => None
  | (k', v) :: rest => if String.eqb k k' then Some v else assoc k rest
  end.

(** Python truth value of a JSON value ([None], [False], zero, and empty
    strings, lists and dicts are false). *)
Definition truthy (v : json) : bool :=
  match v with
  | JNull => false
  | JBool b => b
  | JInt n => negb (n =? 0)
  | JFloat q => negb (Qnum q =? 0)
  | JStr s => negb (String.eqb s "")
  | JArr items => match items with [] => false | _ => true end
  | JObj fields => match fields with [] => false | _ => true end
  end.

(** [d.get(k)] for a value that may or may not be a dict. *)
Definition dict_get (d : json) (k : string) : result json :=
  match d with
  | JObj fields => Ok (default JNull (assoc k fields))
  | JArr _ => Raise (AttributeError "'list' object has no attribute 'get'")
  | JStr _ => Raise (AttributeError "'str' object has no attribute 'get'")
  | JInt _ => Raise (AttributeError "'int' object has no attribute 'get'")
  | JFloat _ => Raise (AttributeError "'float' object has no attribute 'get'")
  | JBool _ => Raise (AttributeError "'bool' object has no attribute 'get'")
  | JNull => Raise (AttributeError "'NoneType' object has no attribute 'get'")
  end.

(** [k in d] for a returned roadmap. *)
Definition has_key (k : string) (v : json) : bool :=
  match v with
  | JObj fields => bool_decide (is_Some (assoc k fields))
  | _ => false
  end.

(** Truth value of an optional string ([None] and [""] are false). *)
Definition truthy_str (s : option string) : bool :=
  match s with
  | None => false
  | Some s => negb (String.eqb s "")
  end.

(** [a or b] on optional strings. *)
Definition or_str (a b : option string) : option string :=
  if truthy_str a then a else b.

(** ** model_utils.py: the question bank *)

Record Question : Type := {
  question : string;
  options : list string;
  scores : list Z
}.

Definition QUESTIONS : list Question := [
  {| question := "Which of the following best describes a 'for' loop?";
     options := ["A conditional statement"; "A way to store multiple values"; "A control flow statement for iterating"; "A function that calls itself"];
     scores := [2;3;10;1] |};
  {| question := "How would you efficiently create a new list of only even numbers from an existing list?";
     options := ["Series of 'if-else' statements"; "A loop that checks each number"; "A function for every possible number"; "Store numbers in separate variables"];
     scores := [3;10;1;2] |};
  {| question := "What is the primary purpose of a function in programming?";
     options := ["To stop the program"; "To store data"; "To group reusable code"; "To create comments"];
     scores := [1;3;10;2] |};
  {| question := "If a coin is flipped twice, what is the probability of getting two heads?";
     options := ["1/2"; "1/3"; "1/4"; "1"];
     scores := [3;2;10;1] |};
  {| question := "What does the 'mean' of a dataset represent?";
     options := ["The middle value"; "The most frequent value"; "The average of all values"; "The range of values"];
     scores := [4;3;10;2] |};
  {| question := "An upward trend in a graph where both variables increase together is called:";
     options := ["Negative correlation"; "Positive correlation"; "No correlation"; "A statistical error"];
     scores := [1;10;2;1] |};
  {| question := "What is the role of a server in a client-server relationship?";
     options := ["To request information"; "To provide resources or services"; "The user's main computer"; "To protect from viruses"];
     scores := [3;10;2;4] |};
  {| question := "Which of the following best describes 'the cloud'?";
     options := ["A single, massive computer"; "A network of servers accessed via internet"; "A personal storage device"; "Software for documents"];
     scores := [2;10;1;1] |};
  {| question := "What is an API (Application Programming Interface)?";
     options := ["A visual user interface"; "A set of rules for app communication"; "A database for storage"; "A security protocol"];
     scores := [3;10;2;4] |};
  {| question := "When designing a website, what is the most important consideration?";
     options := ["Using many colors"; "Intuitive user navigation"; "Complex animations"; "Smallest font size"];
     scores := [2;10;1;1] |};
  {| question := "What's the best way to create visual hierarchy on a poster?";
     options := ["Make all text the same"; "Make important info larger/bolder"; "Put least important info at top"; "Fill every empty space"];
     scores := [1;10;1;2] |};
  {| question := "What is the primary goal of UX (User Experience) design?";
     options := ["Making a product look appealing"; "Focusing on branding/logo"; "Enhancing usability and accessibility"; "Writing the application code"];
     scores := [4;2;10;1] |};
  {| question := "What's a constructive way to handle disagreement with a teammate?";
     options := ["Ignore their idea"; "Publicly criticize them"; "Discuss pros and cons together"; "Complain to someone else"];
     scores := [1;1;10;1] |};
  {| question := "What is the main purpose of version control software like Git?";
     options := ["To write code automatically"; "To track changes and manage collaboration"; "To design the UI"; "To store only the final version"];
     scores := [1;10;1;2] |};
  {| question := "When presenting to stakeholders, it's most important to:";
     options := ["Use highly technical jargon"; "Focus only on what went wrong"; "Clearly communicate progress and challenges"; "Make the presentation as long as possible"];
     scores := [1;1;10;1] |}
].

(** ** model_utils.py: the fallback scorer *)

(** One entry of [per_q]: [{"question": .., "selected": .., "score": ..}]. *)
Record PerQuestion : Type := {
  pq_question : string;
  pq_selected : string;
  pq_score : Z
}.

(** The body of [for q, sel in zip(bank, answers)], with the running
    [total] and [per_q]. *)
Fixpoint score_loop (pairs : list (Question * Z)) (total : Z)
    (per_q : list PerQuestion) : result (Z * list PerQuestion) :=
  match pairs with
  | [] => Ok (total, per_q)
  | (q, sel) :: rest =>
      sc ← index (scores q) sel;
      let total := total + sc in
      selected ← index (options q) sel;
      score_loop rest total
        (per_q ++ [{| pq_question := question q; pq_selected := selected; pq_score := sc |}])
  end.

(** [fallback_score_from_answers] over an arbitrary bank; the source reads
    the global [QUESTIONS]. *)
Definition fallback_score_over (bank : list Question) (answers : list Z)
  : result (Z * list PerQuestion) :=
  score_loop (zip bank answers) 0 [].

Definition fallback_score_from_answers (answers : list Z)
  : result (Z * list PerQuestion) :=
  fallback_score_over QUESTIONS answers.

(** [features_from_answers]: a one-row matrix holding the answers; the
    entries stand for the [float32] values of these integers. *)
Definition FeatureVector : Type := list (list Z).

Definition features_from_answers (answers : list Z) : result FeatureVector :=
  let n := len QUESTIONS in
  if negb (len answers =? n)
  then Raise (ValueError ("Expected " +:+ pretty n +:+ " answers, got " +:+ pretty (len answers)))
  else Ok [answers].

(** ** The libraries and the outside world *)

(** A [requests] response, by what its two methods do when called. *)
Record Response : Type := {
  raise_for_status : result unit;
  r_json : result json
}.

Record Request : Type := {
  endpoint : string;
  headers : list (string * string);
  payload : json;
  timeout : Z
}.

Inductive DMatrix : Type := DMat (X : FeatureVector).

Inductive PredictArg : Type :=
| OfArray (X : FeatureVector)
| OfDMatrix (d : DMatrix).

(** A loaded model object, by what its methods do when called.  Arrays that
    come back hold their entries as rendered by [str]; [predict_proba]
    stands for [predict_proba(X).tolist()]. *)
Record ModelObj : Type := {
  predict : PredictArg -> result (list string);
  predict_proba : FeatureVector -> result (list (list string))
}.

(** What the imported libraries do.  [xgb] is the [xgboost] module as
    [model_utils] sees it ([None] when its import failed); applied to a path
    it stands for [Booster()] followed by [load_model(path)]. *)
Record Host : Type := {
  json_loads : string -> result json;
  json_dumps : json -> string;
  repr_str : string -> string;
  requests_post : Request -> result Response;
  path_exists : string -> bool;
  joblib_load : string -> result ModelObj;
  xgb : option (string -> result ModelObj);
  xgboost_DMatrix : FeatureVector -> result DMatrix
}.

(** A row of the [results] table. *)
Record ResultRow : Type := {
  row_id : Z;
  row_user_id : Z;
  row_features : list Z;
  row_score : Z;
  row_prediction : option string;
  row_roadmap : json
}.

Record World : Type := {
  environ : gmap string string;
  posted : list Request;
  stdout : list string;
  results : list ResultRow
}.

Definition getenv (w : World) (k : string) : option string := environ w !! k.

Definition log_post (w : World) (req : Request) : World :=
  {| environ := environ w; posted := posted w ++ [req];
     stdout := stdout w; results := results w |}.

Definition print (w : World) (line : string) : World :=
  {| environ := environ w; posted := posted w;
     stdout := stdout w ++ [line]; results := results w |}.

(** [db.add(res); db.commit(); db.refresh(res)]: the row gets the primary
    key that the database assigns, a key that no row has: one more than the
    largest in use, which is SQLite's rule for an integer primary key. *)
Definition db_add (w : World) (mk : Z -> ResultRow) : ResultRow * World :=
  let res := mk (foldr Z.max 0 (row_id <$> results w) + 1) in
  (res, {| environ := environ w; posted := posted w;
           stdout := stdout w; results := results w ++ [res] |}).

(** ** model_utils.py: loading the model *)

Definition load_xgb_model (host : Host) (w : World) (path : string)
  : option ModelObj * option string :=
  let resolved :=
    if negb (path_exists host path) then
      let alt := default path (getenv w "XGB_MODEL_PATH") in
      if path_exists host alt then Some alt else None
    else Some path in
  match resolved with
  | None => (None, None)
  | Some path =>
      match joblib_load host path with
      | Ok m => (Some m, Some "sklearn")
      | Raise _ =>
          match xgb host with
          | Some load_booster =>
              match load_booster path with
              | Ok booster => (Some booster, Some "booster")
              | Raise _ => (None, None)
              end
          | None => (None, None)
          end
      end
  end.

(** ** model_utils.py: the roadmap *)

Definition nl : string := String (Ascii.ascii_of_nat 10) EmptyString.

(** The [for item in per_question] loop that fills [strengths] and
    [weaknesses]. *)
Fixpoint strengths_loop (items : list PerQuestion)
    (strengths weaknesses : list string) : list string * list string :=
  match items with
  | [] => (strengths, weaknesses)
  | item :: rest =>
      if 8 <=? pq_score item
      then strengths_loop rest (strengths ++ [pq_question item]) weaknesses
      else if pq_score item <=? 3
      then strengths_loop rest strengths (weaknesses ++ [pq_question item])
      else strengths_loop rest strengths weaknesses
  end.

Definition week (n : Z) (goal : string) (activities : list string) : json :=
  JObj [("week", JInt n); ("goal", JStr goal);
        ("activities", JArr (JStr <$> activities))].

Definition resource (title url why : string) : json :=
  JObj [("title", JStr title); ("url", JStr url); ("why", JStr why)].

(** The dictionary returned when no key is configured. *)
Definition heuristic_plan : json :=
  JObj [
    ("summary", JStr "No Gemini key — heuristic plan provided.");
    ("weeks", JArr [
      week 1 "Basics refresh" ["Revise loops & functions"; "Small coding tasks"];
      week 2 "Data structures" ["Practice lists, dicts, comprehensions"];
      week 3 "Probability & statistics basics" ["Mean, probability tasks"];
      week 4 "APIs & Systems" ["Build a small API endpoint"];
      week 5 "Design & UX" ["Design a poster, apply visual hierarchy"];
      week 6 "Collaboration & presentation" ["Use Git, prepare a presentation"]
    ]);
    ("resources", JArr [
      resource "LeetCode" "https://leetcode.com" "Short focused problems";
      resource "MDN Web Docs" "https://developer.mozilla.org" "Web fundamentals"
    ])
  ].

Definition failure_summary (e : exn) : json :=
  JObj [("summary",
         JStr ("Gemini call failed: " +:+ str_exn e +:+ ". Returning heuristic roadmap."))].

(** [json.loads(text)] where [text] is whatever the response held: anything
    but a string is a [TypeError]. *)
Definition loads_value (host : Host) (text : json) : result json :=
  match text with
  | JStr s => json_loads host s
  | _ => Raise (TypeError "the JSON object must be str, bytes or bytearray")
  end.

(** [resp.get("output_text") or resp.get("result") or json.dumps(resp)]. *)
Definition response_text (host : Host) (resp : json) : result json :=
  a ← dict_get resp "output_text";
  if truthy a then Ok a else
  b ← dict_get resp "result";
  if truthy b then Ok b else
  Ok (JStr (json_dumps host resp)).

Definition build_prompt (host : Host) (user_name : string) (total_score : Z)
    (strengths weaknesses : list string) : string :=
  "Create a personalized 6-week learning roadmap for " +:+ user_name +:+ " in JSON." +:+ nl +:+
  "Total score: " +:+ pretty total_score +:+ nl +:+
  "Strengths: " +:+ str_list (repr_str host <$> strengths) +:+ nl +:+
  "Weaknesses: " +:+ str_list (repr_str host <$> weaknesses) +:+ nl +:+ nl +:+
  "Output a JSON object with keys: summary (string), weeks (array of {week, goal, activities}), resources (array of {title, url, why}).".

(** The request of lines 99-113 and 135-137: the prompt built from the
    strengths and weaknesses, the bearer header and the payload. *)
Definition gemini_request (host : Host) (gemini_api_key : option string)
    (user_name : string) (total_score : Z) (per_question : list PerQuestion)
  : Request :=
  let '(strengths, weaknesses) := strengths_loop per_question [] [] in
  let prompt := build_prompt host user_name total_score strengths weaknesses in
  {| endpoint := "https://api.generativeai.example/v1/generate";
     headers := [("Authorization", "Bearer " +:+ default "" gemini_api_key);
                 ("Content-Type", "application/json")];
     payload := JObj [("prompt", JStr prompt);
                      ("max_output_tokens", JInt 800);
                      ("temperature", JFloat (2 # 10))];
     timeout := 20 |}.

Definition generate_roadmap_with_gemini (host : Host) (w : World)
    (api_key : option string) (user_name : string) (total_score : Z)
    (per_question : list PerQuestion) (prediction : option string)
  : json * World :=
  let gemini_api_key := or_str api_key (getenv w "GEMINI_API_KEY") in
  if negb (truthy_str gemini_api_key) then (heuristic_plan, w)
  else
    let req :=
      gemini_request host gemini_api_key user_name total_score per_question in
    (try_return
       (r ← requests_post host req;
        _ ← raise_for_status r;
        resp ← r_json r;
        text ← response_text host resp;
        Ok (try_return (loads_value host text)
                       (fun _ => JObj [("summary", text)])))
       failure_summary,
     log_post w req).

(** ** main.py *)

Record User : Type := {
  user_id : Z;
  user_name : string;
  user_email : string
}.

Record SubmitPayload : Type := {
  answers : list Z;
  gemini_key : option string
}.

(** [MODEL_PATH] and [MODEL, MODEL_TYPE], set once when the module is
    imported. *)
Definition MODEL_PATH (w : World) : string :=
  default "./models/xgb_model.joblib" (getenv w "XGB_MODEL_PATH").

Definition load_at_import (host : Host) (w : World)
  : option ModelObj * option string :=
  load_xgb_model host w (MODEL_PATH w).

(** The two locals the model block of [submit] assigns. *)
Record Locals : Type := {
  prediction_label : option string;
  model_score : option (list string)
}.

Definition set_label (v : option string) : Stmt Locals :=
  assign (fun l => {| prediction_label := v; model_score := model_score l |}).

Definition set_score (v : option (list string)) : Stmt Locals :=
  assign (fun l => {| prediction_label := prediction_label l; model_score := v |}).

(** [proba[0] if proba else None] *)
Definition first_row (proba : option (list (list string)))
  : result (option (list string)) :=
  match proba with
  | None | Some [] => Ok None
  | Some (r :: rest) => row ← index (r :: rest) 0; Ok (Some row)
  end.

(** The body of the outer [try] in [submit]. *)
Definition model_block (host : Host) (MODEL : option ModelObj)
    (MODEL_TYPE : option string) (answers : list Z) : Stmt Locals :=
  match MODEL with
  | None => skip
  | Some m =>
      eval (features_from_answers answers) (fun X =>
      if bool_decide (MODEL_TYPE = Some "sklearn") then
        eval (predict m (OfArray X)) (fun pred =>
        let proba :=
          try_return (rows ← predict_proba m X; Ok (Some rows)) (fun _ => None) in
        eval (index pred 0) (fun pred0 =>
        seq (set_label (Some pred0))
            (eval (first_row proba) set_score)))
      else
        (* ['xgboost' in globals() and MODEL is not None] holds here *)
        eval (xgboost_DMatrix host X) (fun dmat =>
        eval (predict m (OfDMatrix dmat)) (fun preds =>
        seq (set_label (Some (str_list preds)))
            (set_score (Some preds)))))
  end.

(** [try: <model block>  except Exception as e: print("Model error:", e)],
    started with both locals [None]. *)
Definition classify (host : Host) (MODEL : option ModelObj)
    (MODEL_TYPE : option string) (answers : list Z) (w : World)
  : Locals * World :=
  match model_block host MODEL MODEL_TYPE answers
          {| prediction_label := None; model_score := None |} with
  | (l, None) => (l, w)
  | (l, Some e) => (l, print w ("Model error: " +:+ str_exn e))
  end.

(** [correct_indices = [q["scores"].index(max(q["scores"])) for q in bank]] *)
Definition correct_index_of (q : Question) : result Z :=
  m ← Py.max (scores q);
  list_index (scores q) m.

Definition correct_indices_over (bank : list Question) : result (list Z) :=
  mapM correct_index_of bank.

(** One entry of [per_question_feedback]. *)
Record Feedback : Type := {
  fb_question : string;
  chosen_index : Z;
  chosen_text : string;
  is_correct : bool;
  correct_index : Z;
  correct_text : string;
  score_for_choice : Z
}.

(** The [for i, q in enumerate(bank)] loop of [submit]. *)
Fixpoint feedback_loop (items : list (Z * Question)) (answers : list Z)
    (correct_indices : list Z) (acc : list Feedback) : result (list Feedback) :=
  match items with
  | [] => Ok acc
  | (i, q) :: rest =>
      chosen ← index answers i;
      c_text ← index (options q) chosen;
      ci ← index correct_indices i;
      ci_text ← index (options q) ci;
      sc ← index (scores q) chosen;
      feedback_loop rest answers correct_indices
        (acc ++ [{| fb_question := question q; chosen_index := chosen;
                    chosen_text := c_text; is_correct := bool_decide (chosen = ci);
                    correct_index := ci; correct_text := ci_text;
                    score_for_choice := sc |}])
  end.

Definition per_question_feedback_over (bank : list Question) (answers : list Z)
  : result (list Feedback) :=
  correct_indices ← correct_indices_over bank;
  feedback_loop (enumerate bank) answers correct_indices [].

Definition per_question_feedback (answers : list Z) : result (list Feedback) :=
  per_question_feedback_over QUESTIONS answers.

Record SubmitResponse : Type := {
  result_id : Z;
  total_score : Z;
  roadmap : json;
  per_question : list Feedback
}.

(** [submit], after its dependencies have produced [current_user]; the
    world it leaves behind is returned next to its outcome. *)
Definition submit (host : Host) (MODEL : option ModelObj)
    (MODEL_TYPE : option string) (payload : SubmitPayload)
    (current_user : User) (w : World) : result SubmitResponse * World :=
  if negb (len (answers payload) =? len QUESTIONS)
  then (Raise (HTTPException 400 ("Expected " +:+ pretty (len QUESTIONS) +:+ " answers")), w)
  else
    let '(locals, w) := classify host MODEL MODEL_TYPE (answers payload) w in
    match fallback_score_from_answers (answers payload) with
    | Raise e => (Raise e, w)
    | Ok (total, per_q) =>
        let '(plan, w) :=
          generate_roadmap_with_gemini host w (gemini_key payload)
            (user_name current_user) total per_q (prediction_label locals) in
        let '(res, w) :=
          db_add w (fun id =>
            {| row_id := id; row_user_id := user_id current_user;
               row_features := answers payload; row_score := total;
               row_prediction := prediction_label locals; row_roadmap := plan |}) in
        match per_question_feedback (answers payload) with
        | Raise e => (Raise e, w)
        | Ok fb =>
            (Ok {| result_id := row_id res; total_score := total;
                   roadmap := plan; per_question := fb |}, w)
        end
    end.

(** ** Vocabulary of the properties *)

(** The data-model invariant of a question. *)
Definition well_formed (q : Question) : Prop :=
  length (options q) = length (scores q).

(** A valid AnswerVector: one entry per question, each an index into that
    question's options. *)
Definition valid_answers (bank : list Question) (answers : list Z) : Prop :=
  Forall2 (fun q a => 0 <= a < len (options q)) bank answers.

(** [scores[i][answers[i]]], for an index known to be in range. *)
Definition picked_score (q : Question) (a : Z) : Z :=
  default 0 (scores q !! Z.to_nat a).

Definition sum_Z (l : list Z) : Z := foldr Z.add 0 l.

(** The exact sum of [scores[i][answers[i]]] over all [i]. *)
Definition exact_total (bank : list Question) (answers : list Z) : Z :=
  sum_Z (zip_with picked_score bank answers).

(** [k] is the first position of the largest element of [l]. *)
Definition first_argmax (l : list Z) (k : Z) : Prop :=
  0 <= k /\
  exists m, l !! Z.to_nat k = Some m /\
    (forall (j : nat) x, l !! j = Some x -> x <= m) /\
    (forall (j : nat) x, l !! j = Some x -> (j < Z.to_nat k)%nat -> x < m).

(** The request to the generation service did not come back as a usable
    response: [requests.post] raised, or [raise_for_status] did. *)
Definition call_fails (host : Host) (req : Request) (e : exn) : Prop :=
  requests_post host req = Raise e \/
  exists r, requests_post host req = Ok r /\ raise_for_status r = Raise e.

(** Number of entries under an array-valued key of a roadmap. *)
Definition entries (k : string) (plan : json) : option nat :=
  match plan with
  | JObj fields =>
      match assoc k fields with
      | Some (JArr items) => Some (length items)
      | _ => None
      end
  | _ => None
  end.

(** What a caller of [submit] sees of the scorer's result. *)
Definition score_part (r : result SubmitResponse) : result (Z * list Feedback) :=
  match r with
  | Ok resp => Ok (total_score resp, per_question resp)
  | Raise e => Raise e
  end.

(** The model artifact cannot be used: no file at the configured path nor at
    the alternative one, or a file that neither loader accepts. *)
Definition artifact_absent (host : Host) (w : World) (path : string) : Prop :=
  path_exists host path = false /\
  path_exists host (default path (getenv w "XGB_MODEL_PATH")) = false.

Definition artifact_corrupted (host : Host) (path : string) : Prop :=
  path_exists host path = true /\
  (exists e, joblib_load host path = Raise e) /\
  match xgb host with
  | Some load_booster => exists e, load_booster path = Raise e
  | None => True
  end.

(** What every entry appended by the feedback loop holds. *)
Definition entry_ok (answers cis : list Z) (p : Z * Question) (f : Feedback)
  : Prop :=
  index answers p.1 = Ok (chosen_index f) /\
  index cis p.1 = Ok (correct_index f) /\
  is_correct f = bool_decide (chosen_index f = correct_index f) /\
  fb_question f = question p.2 /\
  index (options p.2) (chosen_index f) = Ok (chosen_text f) /\
  index (options p.2) (correct_index f) = Ok (correct_text f) /\
  index (scores p.2) (chosen_index f) = Ok (score_for_choice f).

(** Python's false values among JSON values: [None], [False], a zero, and
    the empty string, list and dict. *)
Definition python_false (v : json) : Prop :=
  v = JNull \/ v = JBool false \/ v = JInt 0 \/
  (exists q, v = JFloat q /\ Qnum q = 0) \/
  v = JStr "" \/ v = JArr [] \/ v = JObj [].

(** What [d.get(k)] returns counts as false: the key is missing or holds a
    false value. *)
Definition absent_or_false (o : option json) : Prop :=
  o = None \/ exists v, o = Some v /\ python_false v.

(** ** Sample data *)

Definition best_answers : list Z := [2;1;2;2;2;1;1;1;1;1;1;2;2;1;2].
Definition zero_answers : list Z := replicate 15 0.
Definition last_answers : list Z := replicate 15 (-1).
Definition one_answer : list Z := [2].
Definition sixteen_answers : list Z := replicate 16 0.

Definition empty_world : World :=
  {| environ := ∅; posted := []; stdout := []; results := [] |}.

(** The text [{}], a JSON document. *)
Definition sample_text : string := "{}".

Definition broken_model : ModelObj :=
  {| predict := fun _ => Raise (LibraryError "feature shape mismatch");
     predict_proba := fun _ => Raise (LibraryError "feature shape mismatch") |}.

(** A host with no model file and an unreachable service. *)
Definition offline_host : Host :=
  {| json_loads := fun s =>
       if String.eqb s sample_text then Ok (JObj [])
       else Raise (ValueError "Expecting value");
     json_dumps := fun _ => sample_text;
     repr_str := fun s => "'" +:+ s +:+ "'";
     requests_post := fun _ => Raise (LibraryError "connection refused");
     path_exists := fun _ => false;
     joblib_load := fun _ => Raise (LibraryError "no such file");
     xgb := None;
     xgboost_DMatrix := fun X => Ok (DMat X) |}.

(** A host whose service answers with the given body. *)
Definition answering_host (body : json) : Host :=
  {| json_loads := json_loads offline_host;
     json_dumps := json_dumps offline_host;
     repr_str := repr_str offline_host;
     requests_post := fun _ => Ok {| raise_for_status := Ok (); r_json := Ok body |};
     path_exists := fun _ => true;
     joblib_load := fun _ => Raise (LibraryError "invalid load key");
     xgb := None;
     xgboost_DMatrix := fun X => Ok (DMat X) |}.

Definition sample_user : User :=
  {| user_id := 1; user_name := "Ada"; user_email := "ada@example.org" |}.

(** ** Vocabulary of the further properties *)

(** What every record appended by the scoring loop holds. *)
Definition record_ok (p : Question * Z) (r : PerQuestion) : Prop :=
  index (scores p.1) p.2 = Ok (pq_score r) /\
  index (options p.1) p.2 = Ok (pq_selected r) /\
  pq_question r = question p.1.

(** A scorer record and a feedback entry that speak of the same question,
    the same option text and the same points. *)
Definition same_choice (r : PerQuestion) (f : Feedback) : Prop :=
  pq_question r = fb_question f /\
  pq_selected r = chosen_text f /\
  pq_score r = score_for_choice f.

(** The [Authorization] header of a request. *)
Definition authorization (req : Request) : option string :=
  assoc "Authorization" (headers req).

(** The parts of the world that only [submit]'s own statements touch. *)
Definition same_store (w w' : World) : Prop :=
  environ w' = environ w /\ results w' = results w /\ posted w' = posted w.

(** ** auth.py *)

(** What [jwt.decode] does with a token: the claims, a [JWTError] (bad
    signature, expired, malformed), or some other exception. *)
Inductive JwtOutcome : Type :=
| Decoded (claims : json)
| JWTError (msg : string)
| Crashed (e : exn).

(** What the libraries behind [auth.py] and [int] do.  Byte strings are
    strings too; [utf8_encode] and [utf8_decode] are [encode] and [decode]
    with ['utf-8'] and [errors='ignore'].  [pwd_hash n] is the [n]-th call of
    [pwd_ctx.hash] in the life of the process, with the salt it draws;
    [expiry_after now m] is [datetime.utcnow() + timedelta(minutes=m)] at the
    instant [now]; [jwt_decode now] checks a token at the instant [now]. *)
Record AuthLib : Type := {
  utf8_encode : string -> string;
  utf8_decode : string -> string;
  pwd_hash : nat -> string -> result string;
  pwd_verify : string -> string -> result bool;
  expiry_after : Z -> Z -> result json;
  jwt_encode : json -> string -> string -> result string;
  jwt_decode : Z -> string -> string -> list string -> JwtOutcome;
  py_int : json -> result Z
}.

Definition ALGORITHM : string := "HS256".
Definition ACCESS_TOKEN_EXPIRE_MINUTES : Z := 60 * 24.
Definition BCRYPT_MAX_BYTES : nat := 72.

(** [SECRET_KEY = os.getenv("JWT_SECRET", "dev_secret_change_me")] *)
Definition SECRET_KEY (w : World) : string :=
  default "dev_secret_change_me" (getenv w "JWT_SECRET").

Definition _truncate_password_for_bcrypt (lib : AuthLib)
    (password : option string) : string :=
  match password with
  | None => ""
  | Some password =>
      let b := utf8_encode lib password in
      if (String.length b <=? BCRYPT_MAX_BYTES)%nat then password
      else utf8_decode lib (String.substring 0 BCRYPT_MAX_BYTES b)
  end.

Definition verify_password (lib : AuthLib) (plain hashed : string)
  : result bool :=
  let p := _truncate_password_for_bcrypt lib (Some plain) in
  pwd_verify lib p hashed.

(** [calls] is the number of hashes made so far. *)
Definition get_password_hash (lib : AuthLib) (calls : nat) (password : string)
  : result string :=
  let p := _truncate_password_for_bcrypt lib (Some password) in
  pwd_hash lib calls p.

(** [d.update({k: v})]: an existing key keeps its place. *)
Fixpoint dict_update (k : string) (v : json) (d : list (string * json))
  : list (string * json) :=
  match d with
  | [] => [(k, v)]
  | (k', v') :: rest =>
      if String.eqb k k' then (k, v) :: rest
      else (k', v') :: dict_update k v rest
  end.

(** [expires_delta or ACCESS_TOKEN_EXPIRE_MINUTES] *)
Definition minutes_or_default (expires_delta : option Z) : Z :=
  match expires_delta with
  | None => ACCESS_TOKEN_EXPIRE_MINUTES
  | Some m => if m =? 0 then ACCESS_TOKEN_EXPIRE_MINUTES else m
  end.

Definition create_access_token (lib : AuthLib) (key : string) (now : Z)
    (data : list (string * json)) (expires_delta : option Z) : result string :=
  let to_encode := data in
  expire ← expiry_after lib now (minutes_or_default expires_delta);
  let to_encode := dict_update "exp" expire to_encode in
  jwt_encode lib (JObj to_encode) key ALGORITHM.

(** [None] is the [None] of the source; an exception other than [JWTError]
    is not caught. *)
Definition decode_access_token (lib : AuthLib) (key : string) (now : Z)
    (token : string) : result (option json) :=
  match jwt_decode lib now token key [ALGORITHM] with
  | Decoded payload => Ok (Some payload)
  | JWTError _ => Ok None
  | Crashed e => Raise e
  end.

(** ** main.py: accounts *)

(** A row of the [users] table: what the endpoints show of a user, and the
    stored hash. *)
Record Account : Type := {
  account : User;
  hashed_password : string
}.

(** The accounts side of the process: the table, the number of hashes made
    so far, and the instant at which the current request runs. *)
Record Site : Type := {
  site_users : list Account;
  site_hashes : nat;
  site_now : Z
}.

(** [db.query(User).get(user_id)] *)
Definition get_user (users : list Account) (id : Z) : option Account :=
  list_find (fun a => user_id (account a) = id) users ≫= fun p => Some p.2.

(** [db.query(User).filter(User.email == email).first()]; the column is
    unique, so that at most one row can match. *)
Definition first_by_email (users : list Account) (email : string)
  : option Account :=
  list_find (fun a => user_email (account a) = email) users ≫= fun p => Some p.2.

(** The primary key that [db.add], [db.commit], [db.refresh] give a new
    row: one more than the largest in use. *)
Definition next_id (users : list Account) : Z :=
  foldr Z.max 0 ((fun a => user_id (account a)) <$> users) + 1.

Definition space : Ascii.ascii := Ascii.ascii_of_nat 32.

(** [s.partition(c)] for a one-character separator. *)
Fixpoint str_partition (c : Ascii.ascii) (s : string) : string * string * string :=
  match s with
  | EmptyString => ("", "", "")
  | String x rest =>
      if Ascii.eqb x c then ("", String c EmptyString, rest)
      else let '(head, sep, tail) := str_partition c rest in
           (String x head, sep, tail)
  end.

Definition get_current_user (lib : AuthLib) (key : string) (site : Site)
    (authorization : option string) : result User :=
  if negb (truthy_str authorization)
  then Raise (HTTPException 401 "Missing authorization header")
  else
    let '(scheme, _, token) := str_partition space (default "" authorization) in
    payload ← decode_access_token lib key (site_now site) token;
    if negb (truthy (default JNull payload))
    then Raise (HTTPException 401 "Invalid token")
    else
      sub ← dict_get (default JNull payload) "sub";
      user_id ← py_int lib sub;
      match get_user (site_users site) user_id with
      | None => Raise (HTTPException 401 "User not found")
      | Some user => Ok (account user)
      end.

Record RegisterPayload : Type := {
  reg_name : string;
  reg_email : string;
  reg_password : string
}.

Record LoginPayload : Type := {
  login_email : string;
  login_password : string
}.

(** [{"access_token": .., "token_type": "bearer", "user": {..}}] *)
Record AuthResponse : Type := {
  access_token : string;
  token_type : string;
  auth_user : User
}.

Definition token_claims (u : User) : list (string * json) :=
  [("sub", JStr (pretty (user_id u))); ("email", JStr (user_email u))].

Definition register (lib : AuthLib) (key : string) (payload : RegisterPayload)
    (site : Site) : result AuthResponse * Site :=
  match first_by_email (site_users site) (reg_email payload) with
  | Some _ => (Raise (HTTPException 400 "Email already registered"), site)
  | None =>
      match get_password_hash lib (site_hashes site) (reg_password payload) with
      | Raise e => (Raise e, site)
      | Ok hashed =>
          let new_user :=
            {| account := {| user_id := next_id (site_users site);
                             user_name := reg_name payload;
                             user_email := reg_email payload |};
               hashed_password := hashed |} in
          let site :=
            {| site_users := site_users site ++ [new_user];
               site_hashes := S (site_hashes site);
               site_now := site_now site |} in
          (token ← create_access_token lib key (site_now site)
                     (token_claims (account new_user)) None;
           Ok {| access_token := token; token_type := "bearer";
                 auth_user := account new_user |},
           site)
      end
  end.

Definition login (lib : AuthLib) (key : string) (payload : LoginPayload)
    (site : Site) : result AuthResponse :=
  match first_by_email (site_users site) (login_email payload) with
  | None => Raise (HTTPException 401 "Invalid credentials")
  | Some user =>
      verified ← verify_password lib (login_password payload) (hashed_password user);
      if negb verified
      then Raise (HTTPException 401 "Invalid credentials")
      else
        token ← create_access_token lib key (site_now site)
                  (token_claims (account user)) None;
        Ok {| access_token := token; token_type := "bearer";
              auth_user := account user |}
  end.

(** A library whose codec is the identity, as UTF-8 is on ASCII text, and
    whose other parts are as small as they can be. *)
Definition ascii_lib : AuthLib :=
  {| utf8_encode := fun s => s;
     utf8_decode := fun s => s;
     pwd_hash := fun n p => Ok ("$2b$" +:+ p);
     pwd_verify := fun p h => Ok (bool_decide (h = "$2b$" +:+ p));
     expiry_after := fun now m => Ok (JInt (now + m * 60));
     jwt_encode := fun claims key alg =>
       match claims with
       | JObj (("sub", JStr id) :: _) => Ok id
       | _ => Raise (LibraryError "unsupported claims")
       end;
     jwt_decode := fun now token key algs =>
       if String.eqb token "" then JWTError "Not enough segments"
       else Decoded (JObj [("sub", JStr token)]);
     py_int := fun v =>
       match v with
       | JStr "1" => Ok 1
       | JStr "2" => Ok 2
       | JInt n => Ok n
       | _ => Raise (ValueError "invalid literal for int()")
       end |}.

Definition empty_site : Site :=
  {| site_users := []; site_hashes := 0; site_now := 0 |}.

Definition sample_registration : RegisterPayload :=
  {| reg_name := "Ada"; reg_email := "ada@example.org"; reg_password := "s3cret" |}.

(** Two passwords of 73 bytes that differ in the last one. *)
Definition long_password_a : string :=
  String.concat "" (replicate 72 "a") +:+ "x".
Definition long_password_b : string :=
  String.concat "" (replicate 72 "a") +:+ "y".

(** [c in s] *)
Fixpoint has_char (c : Ascii.ascii) (s : string) : bool :=
  match s with
  | EmptyString => false
  | String x rest => Ascii.eqb x c || has_char c rest
  end.

Definition emails (users : list Account) : list string :=
  (fun a => user_email (account a)) <$> users.

Definition ids (users : list Account) : list Z :=
  (fun a => user_id (account a)) <$> users.

(** The table after the sample registration, at a later instant. *)
Definition sample_account : Account :=
  {| account := {| user_id := 1; user_name := "Ada";
                   user_email := "ada@example.org" |};
     hashed_password := "$2b$s3cret" |}.

Definition sample_site : Site :=
  {| site_users := [sample_account]; site_hashes := 1; site_now := 3600 |}.

Definition sample_login : LoginPayload :=
  {| login_email := "ada@example.org"; login_password := "s3cret" |}.

(** The sample library with a token issuer that is out of order. *)
Definition tokenless_lib : AuthLib :=
  {| utf8_encode := utf8_encode ascii_lib;
     utf8_decode := utf8_decode ascii_lib;
     pwd_hash := pwd_hash ascii_lib;
     pwd_verify := pwd_verify ascii_lib;
     expiry_after := expiry_after ascii_lib;
     jwt_encode := fun _ _ _ => Raise (LibraryError "no signing backend");
     jwt_decode := jwt_decode ascii_lib;
     py_int := py_int ascii_lib |}.

(** * Properties *)

(** ** Subscripts *)

Lemma index_nonneg {A} (l : list A) (i : Z) (x : A) :
  0 <= i -> index l i = Ok x <-> l !! Z.to_nat i = Some x.
Proof.
  intros Hi. unfold index, len.
  destruct (Z.ltb_spec i 0) as [?|_]; [lia|].
  destruct (Z.ltb_spec i 0) as [?|_]; [lia|].
  destruct (Z.leb_spec (Z.of_nat (length l)) i) as [Hge|Hlt]; simpl.
  - split; [discriminate|]. intros Hl. apply lookup_lt_Some in Hl. lia.
  - destruct (l !! Z.to_nat i) eqn:E; split; congruence.
Qed.

Lemma index_in_range {A} (l : list A) (i : Z) :
  - len l <= i < len l -> exists x, index l i = Ok x.
Proof.
  unfold index, len. intros Hi.
  set (j := if i <? 0 then i + Z.of_nat (length l) else i).
  assert (0 <= j < Z.of_nat (length l)) as Hj.
  { subst j. destruct (Z.ltb_spec i 0); lia. }
  destruct (Z.ltb_spec j 0) as [?|_]; [lia|].
  destruct (Z.leb_spec (Z.of_nat (length l)) j) as [?|_]; [lia|]. simpl.
  destruct (lookup_lt_is_Some_2 l (Z.to_nat j)) as [x Hx]; [lia|].
  rewrite Hx. eauto.
Qed.

Lemma index_raises {A} (l : list A) (i : Z) (e : exn) :
  index l i = Raise e ->
  e = IndexError "list index out of range" /\ ~ (- len l <= i < len l).
Proof.
  intros H. split.
  - unfold index in H.
    destruct (_ || _); [congruence|]. destruct (l !! _); congruence.
  - intros Hi. destruct (index_in_range l i Hi) as [x Hx]. congruence.
Qed.

Lemma index_ok_range {A} (l : list A) (i : Z) (x : A) :
  index l i = Ok x -> - len l <= i < len l.
Proof.
  unfold index, len.
  set (j := if i <? 0 then i + Z.of_nat (length l) else i).
  assert (0 <= j < Z.of_nat (length l) -> - Z.of_nat (length l) <= i < Z.of_nat (length l)) as Hj.
  { subst j. destruct (Z.ltb_spec i 0); lia. }
  destruct (Z.ltb_spec j 0) as [?|?]; [discriminate|].
  destruct (Z.leb_spec (Z.of_nat (length l)) j) as [?|?]; [discriminate|].
  intros _. apply Hj. lia.
Qed.

Lemma index_same_length {A B} (l : list A) (l' : list B) (i : Z) :
  length l = length l' -> is_ok (index l i) = is_ok (index l' i).
Proof.
  intros Hlen.
  assert (len l = len l') as Hlen' by (unfold len; lia).
  destruct (index l i) as [x|e] eqn:E.
  - apply index_ok_range in E. rewrite Hlen' in E.
    by destruct (index_in_range l' i E) as [y ->].
  - destruct (index l' i) as [y|e'] eqn:E'; [|done].
    apply index_ok_range in E'. rewrite <- Hlen' in E'.
    destruct (index_in_range l i E') as [x Hx]. congruence.
Qed.

(** ** The fallback scorer *)

Section Scorer.

Variable bank : list Question.
Hypothesis bank_wf : Forall well_formed bank.

Lemma score_loop_valid (answers : list Z) :
  valid_answers bank answers ->
  forall total per_q, exists new,
    score_loop (zip bank answers) total per_q
      = Ok (total + exact_total bank answers, per_q ++ new) /\
    length new = length bank /\
    forall (i : nat) q a, bank !! i = Some q -> answers !! i = Some a ->
      exists opt sc,
        options q !! Z.to_nat a = Some opt /\
        scores q !! Z.to_nat a = Some sc /\
        new !! i = Some {| pq_question := question q; pq_selected := opt;
                           pq_score := sc |}.
Proof using bank_wf.
  intros Hvalid. unfold Py.zip.
  induction Hvalid as [|q a bank' answers' Hqa Hrest IH]; intros total per_q.
  - exists []. cbn. rewrite Z.add_0_r, app_nil_r. repeat split; [done..|].
    intros i q a Hq. by rewrite lookup_nil in Hq.
  - apply Forall_cons in bank_wf as [Hq Hwf].
    destruct (index_in_range (scores q) a) as [sc Hsc].
    { unfold well_formed, len in *. lia. }
    destruct (index_in_range (options q) a) as [opt Hopt]; [lia|].
    destruct (IH Hwf (total + sc)
      (per_q ++ [{| pq_question := question q; pq_selected := opt;
                    pq_score := sc |}])) as (new & Heq & Hlen & Hnew).
    apply index_nonneg in Hsc as Hsc'; [|lia].
    apply index_nonneg in Hopt as Hopt'; [|lia].
    eexists (_ :: new). split; [|split].
    + cbn. rewrite Hsc. cbn. rewrite Hopt. cbn. rewrite Heq.
      unfold exact_total, picked_score. cbn. rewrite Hsc'. cbn.
      rewrite <- app_assoc. cbn. do 2 f_equal. unfold sum_Z. lia.
    + cbn. by rewrite Hlen.
    + intros [|i] q' a' Hq' Ha'; cbn in *.
      * simplify_eq. eauto.
      * eauto.
Qed.

(** The loop stops on the first pair whose subscript is outside
    [[-n, n)], and on nothing else. *)
Lemma score_loop_raises (pairs : list (Question * Z)) :
  Forall (fun p => well_formed p.1) pairs ->
  forall total per_q,
    (forall e, score_loop pairs total per_q = Raise e ->
               e = IndexError "list index out of range") /\
    (is_ok (score_loop pairs total per_q) = false <->
     Exists (fun p => ~ (- len (options p.1) <= p.2 < len (options p.1))) pairs).
Proof.
  induction 1 as [|[q a] pairs Hq Hwf IH]; intros total per_q.
  - cbn. split; [discriminate|]. split; [discriminate|]. by intros ?%Exists_nil.
  - cbn in Hq. cbn [score_loop].
    pose proof (index_same_length (options q) (scores q) a Hq) as Hsame.
    destruct (index (scores q) a) as [sc|e] eqn:Hsc; cbn.
    + destruct (index (options q) a) as [opt|e] eqn:Hopt; [|done]. cbn.
      specialize (IH (total + sc)
        (per_q ++ [{| pq_question := question q; pq_selected := opt;
                      pq_score := sc |}])) as [IHe IHiff].
      split; [done|]. rewrite IHiff, Exists_cons. cbn.
      apply index_ok_range in Hopt. intuition.
    + apply index_raises in Hsc as [-> Hout].
      split; [congruence|]. rewrite Exists_cons. cbn.
      unfold well_formed, len in *. split; [|done]. intros _. left. lia.
Qed.

End Scorer.

Lemma QUESTIONS_wf : Forall well_formed QUESTIONS.
Proof. repeat constructor. Qed.

(** C1: for a valid AnswerVector the scorer returns; its total is the exact
    sum of [scores[i][answers[i]]], and [per_q] has, in bank order, one
    record per question with the question text, the text of the selected
    option and that option's points. *)
Theorem C1_total_and_records (answers : list Z) :
  valid_answers QUESTIONS answers ->
  exists per_q,
    fallback_score_from_answers answers
      = Ok (exact_total QUESTIONS answers, per_q) /\
    length per_q = length QUESTIONS /\
    forall (i : nat) q a, QUESTIONS !! i = Some q -> answers !! i = Some a ->
      exists opt sc,
        options q !! Z.to_nat a = Some opt /\
        scores q !! Z.to_nat a = Some sc /\
        per_q !! i = Some {| pq_question := question q; pq_selected := opt;
                             pq_score := sc |}.
Proof.
  intros Hvalid.
  destruct (score_loop_valid QUESTIONS QUESTIONS_wf answers Hvalid 0 [])
    as (new & Heq & Hlen & Hnew).
  exists new. unfold fallback_score_from_answers, fallback_score_over.
  by rewrite Heq.
Qed.

Lemma C1_total_and_records_witness :
  valid_answers QUESTIONS best_answers /\
  exists per_q,
    fallback_score_from_answers best_answers
      = Ok (exact_total QUESTIONS best_answers, per_q) /\
    length per_q = length QUESTIONS /\
    forall (i : nat) q a, QUESTIONS !! i = Some q -> best_answers !! i = Some a ->
      exists opt sc,
        options q !! Z.to_nat a = Some opt /\
        scores q !! Z.to_nat a = Some sc /\
        per_q !! i = Some {| pq_question := question q; pq_selected := opt;
                             pq_score := sc |}.
Proof.
  assert (valid_answers QUESTIONS best_answers) as H.
  { unfold valid_answers, best_answers, QUESTIONS.
    repeat (constructor; [unfold len; simpl; lia|]). constructor. }
  split; [exact H|]. apply (C1_total_and_records best_answers). exact H.
Defined.

(** C2, as the specification words it, fails: the vector with [-1] everywhere has
    every entry outside [[0, 4)], and the scorer returns for it (26 points,
    the last option of every question). *)
Lemma C2_negative_index_counterexample :
  (exists (i : nat) q a,
     QUESTIONS !! i = Some q /\ last_answers !! i = Some a /\
     ~ (0 <= a < len (options q))) /\
  exists per_q, fallback_score_from_answers last_answers = Ok (26, per_q).
Proof.
  split.
  - exists 0%nat. eexists. exists (-1). cbn. split; [reflexivity|].
    split; [reflexivity|]. lia.
  - eexists. vm_compute. reflexivity.
Qed.

(** C2, amended: the scorer fails exactly when some examined answer lies
    outside [[-len(options_i), len(options_i))]; the failure is always an
    [IndexError], and a vector whose examined entries are all inside
    [[0, len(options_i))] never fails. *)
Theorem C2_index_error_iff (answers : list Z) :
  (forall e, fallback_score_from_answers answers = Raise e ->
             e = IndexError "list index out of range") /\
  ((exists e, fallback_score_from_answers answers = Raise e) <->
   exists (i : nat) q a,
     QUESTIONS !! i = Some q /\ answers !! i = Some a /\
     ~ (- len (options q) <= a < len (options q))) /\
  ((forall (i : nat) q a,
      QUESTIONS !! i = Some q -> answers !! i = Some a ->
      0 <= a < len (options q)) ->
   is_ok (fallback_score_from_answers answers) = true).
Proof.
  unfold fallback_score_from_answers, fallback_score_over, Py.zip.
  assert (Forall (fun p : Question * Z => well_formed p.1)
            (zip_with pair QUESTIONS answers)) as Hwf.
  { apply Forall_forall. intros [q a] (i & q' & a' & ? & Hq & _)%elem_of_lookup_zip_with.
    simplify_eq. cbn. by eapply (proj1 (Forall_lookup _ _) QUESTIONS_wf). }
  destruct (score_loop_raises _ Hwf 0 []) as [Hexn Hiff].
  assert ((exists e, score_loop (zip_with pair QUESTIONS answers) 0 [] = Raise e) <->
          exists (i : nat) q a,
            QUESTIONS !! i = Some q /\ answers !! i = Some a /\
            ~ (- len (options q) <= a < len (options q))) as Hraise.
  { transitivity (is_ok (score_loop (zip_with pair QUESTIONS answers) 0 []) = false).
    { destruct (score_loop _ _ _); cbn; split; try done; eauto. by intros [? ?]. }
    rewrite Hiff, Exists_exists. split.
    - intros ([q a] & (i & q' & a' & ? & Hq & Ha)%elem_of_lookup_zip_with & Hout).
      simplify_eq. cbn in Hout. eauto 10.
    - intros (i & q & a & Hq & Ha & Hout). exists (q, a). split; [|done].
      apply elem_of_lookup_zip_with. eauto 10. }
  split; [exact Hexn|]. split; [exact Hraise|].
  intros Hin. destruct (score_loop _ _ _) as [|e] eqn:E; [done|].
  exfalso. destruct (proj1 Hraise (ex_intro _ e eq_refl)) as (i & q & a & Hq & Ha & Hout).
  specialize (Hin i q a Hq Ha). unfold len in *. lia.
Qed.


(** ** The correct index *)

Lemma max_from_spec (l : list Z) : forall best,
  best <= max_from best l /\
  (forall x, x ∈ l -> x <= max_from best l) /\
  (max_from best l = best \/ max_from best l ∈ l).
Proof.
  induction l as [|x l IH]; intros best; cbn.
  - split; [lia|]. split; [|by left]. by intros x ?%elem_of_nil.
  - destruct (IH (if best <? x then x else best)) as (Hle & Hall & Hin).
    destruct (Z.ltb_spec best x) as [Hlt|Hge].
    + split; [lia|]. split.
      * intros y [->|Hy]%elem_of_cons; [done|auto].
      * right. destruct Hin as [->|Hin]; [by left|by right].
    + split; [lia|]. split.
      * intros y [->|Hy]%elem_of_cons; [lia|auto].
      * destruct Hin as [->|Hin]; [by left|right; by right].
Qed.

Lemma index_from_spec (v : Z) (l : list Z) : forall pos k,
  index_from pos v l = Ok k ->
  exists j : nat, k = pos + Z.of_nat j /\ l !! j = Some v /\
    forall (j' : nat) x, (j' < j)%nat -> l !! j' = Some x -> x <> v.
Proof.
  induction l as [|x l IH]; intros pos k; cbn; [discriminate|].
  destruct (Z.eqb_spec x v) as [->|Hne].
  - intros [= <-]. exists 0%nat. split; [lia|]. split; [done|]. lia.
  - intros (j & -> & Hj & Hbefore)%IH. exists (S j). split; [lia|].
    split; [done|]. intros [|j'] y Hlt; cbn; [congruence|].
    apply Hbefore. lia.
Qed.

Lemma index_from_found (v : Z) (l : list Z) : forall pos,
  v ∈ l -> exists k, index_from pos v l = Ok k.
Proof.
  induction l as [|x l IH]; intros pos; [by intros ?%elem_of_nil|].
  cbn. destruct (Z.eqb_spec x v) as [->|Hne]; [eauto|].
  intros [->|Hin]%elem_of_cons; [done|]. by apply IH.
Qed.

(** [scores.index(max(scores))] is the first position of the largest
    score, for every non-empty [scores]. *)
Lemma correct_index_of_spec (q : Question) :
  scores q <> [] ->
  exists k, correct_index_of q = Ok k /\ first_argmax (scores q) k.
Proof.
  unfold correct_index_of, list_index. destruct (scores q) as [|x l] eqn:E; [done|].
  intros _. cbn [Py.max]. cbn [mbind result_bind].
  destruct (max_from_spec l x) as (Hle & Hall & Hin).
  assert (forall y, y ∈ x :: l -> y <= max_from x l) as Hmax.
  { intros y [->|Hy]%elem_of_cons; auto. }
  destruct (index_from_found (max_from x l) (x :: l) 0) as [k Hk].
  { destruct Hin as [->|Hin]; [by left|by right]. }
  exists k. split; [done|].
  apply index_from_spec in Hk as (j & -> & Hj & Hbefore).
  split; [lia|]. exists (max_from x l).
  replace (Z.to_nat (0 + Z.of_nat j)) with j by lia.
  split; [done|]. split.
  - intros j' y Hy. apply Hmax. apply list_elem_of_lookup. eauto.
  - intros j' y Hy Hlt.
    assert (y <= max_from x l) by (apply Hmax, list_elem_of_lookup; eauto).
    specialize (Hbefore j' y Hlt Hy). lia.
Qed.

Lemma first_argmax_unique (l : list Z) (k k' : Z) :
  first_argmax l k -> first_argmax l k' -> k = k'.
Proof.
  intros (Hk & m & Hm & Hle & Hlt) (Hk' & m' & Hm' & Hle' & Hlt').
  destruct (decide (Z.to_nat k < Z.to_nat k')%nat) as [H|H].
  { specialize (Hlt' _ _ Hm H). specialize (Hle _ _ Hm'). lia. }
  destruct (decide (Z.to_nat k' < Z.to_nat k)%nat) as [H'|H'].
  { specialize (Hlt _ _ Hm' H'). specialize (Hle' _ _ Hm). lia. }
  lia.
Qed.

Lemma mapM_result_Ok {A B} (f : A -> result B) (l : list A) : forall ks,
  mapM f l = Ok ks -> Forall2 (fun x k => f x = Ok k) l ks.
Proof.
  induction l as [|x l IH]; intros ks; cbn.
  - intros [= <-]. constructor.
  - destruct (f x) as [y|e] eqn:Hy; cbn; [|discriminate].
    destruct (mapM f l) as [ks'|e]; cbn; [|discriminate].
    intros [= <-]. constructor; auto.
Qed.

Lemma lookup_enumerate_from {A} (l : list A) : forall (i : Z) (j : nat) p,
  enumerate_from i l !! j = Some p ->
  p.1 = i + Z.of_nat j /\ l !! j = Some p.2.
Proof.
  induction l as [|x l IH]; intros i j p; cbn; [by rewrite lookup_nil|].
  destruct j as [|j]; cbn.
  - intros [= <-]. cbn. split; [lia|done].
  - intros [-> ?]%IH. split; [lia|done].
Qed.

Lemma length_enumerate_from {A} (l : list A) (i : Z) :
  length (enumerate_from i l) = length l.
Proof. revert i. induction l; intros i; cbn; [done|]. by rewrite IHl. Qed.

Lemma feedback_loop_spec (answers cis : list Z) (items : list (Z * Question)) :
  forall acc fb,
    feedback_loop items answers cis acc = Ok fb ->
    exists new, fb = acc ++ new /\ Forall2 (entry_ok answers cis) items new.
Proof.
  induction items as [|[i q] items IH]; intros acc fb; cbn.
  - intros [= <-]. exists []. by rewrite app_nil_r.
  - destruct (index answers i) as [chosen|] eqn:Hch; cbn; [|discriminate].
    destruct (index (options q) chosen) as [ct|] eqn:Hct; cbn; [|discriminate].
    destruct (index cis i) as [ci|] eqn:Hci; cbn; [|discriminate].
    destruct (index (options q) ci) as [cit|] eqn:Hcit; cbn; [|discriminate].
    destruct (index (scores q) chosen) as [sc|] eqn:Hsc; cbn; [|discriminate].
    intros (new & -> & Hnew)%IH. eexists (_ :: new).
    rewrite <- app_assoc. split; [reflexivity|].
    constructor; [|done]. by repeat split.
Qed.

Lemma feedback_loop_raises (answers cis : list Z) (items : list (Z * Question)) :
  forall acc e,
    feedback_loop items answers cis acc = Raise e ->
    e = IndexError "list index out of range".
Proof.
  induction items as [|[i q] items IH]; intros acc e; cbn; [discriminate|].
  destruct (index answers i) as [chosen|] eqn:Hch; cbn;
    [|intros [= <-]; by apply index_raises in Hch as [-> _]].
  destruct (index (options q) chosen) as [ct|] eqn:Hct; cbn;
    [|intros [= <-]; by apply index_raises in Hct as [-> _]].
  destruct (index cis i) as [ci|] eqn:Hci; cbn;
    [|intros [= <-]; by apply index_raises in Hci as [-> _]].
  destruct (index (options q) ci) as [cit|] eqn:Hcit; cbn;
    [|intros [= <-]; by apply index_raises in Hcit as [-> _]].
  destruct (index (scores q) chosen) as [sc|] eqn:Hsc; cbn;
    [|intros [= <-]; by apply index_raises in Hsc as [-> _]].
  apply IH.
Qed.

Lemma mapM_result_total {A B} (f : A -> result B) (l : list A) :
  Forall (fun x => exists k, f x = Ok k) l -> exists ks, mapM f l = Ok ks.
Proof.
  induction 1 as [|x l [k Hk] _ [ks Hks]]; cbn; [by eexists|].
  rewrite Hk. cbn. rewrite Hks. cbn. by eexists.
Qed.

Lemma feedback_loop_total (answers cis : list Z) (items : list (Z * Question)) :
  Forall (fun p => well_formed p.2 /\
            exists chosen ci,
              index answers p.1 = Ok chosen /\ index cis p.1 = Ok ci /\
              - len (options p.2) <= chosen < len (options p.2) /\
              - len (options p.2) <= ci < len (options p.2)) items ->
  forall acc, exists fb, feedback_loop items answers cis acc = Ok fb.
Proof.
  induction 1 as [|[i q] items (Hwf & chosen & ci & Hch & Hci & Hr & Hr') _ IH];
    intros acc; cbn in *; [by eexists|].
  rewrite Hch. cbn.
  destruct (index_in_range (options q) chosen Hr) as [ct ->]. cbn.
  rewrite Hci. cbn.
  destruct (index_in_range (options q) ci Hr') as [cit ->]. cbn.
  destruct (index_in_range (scores q) chosen) as [sc ->].
  { unfold well_formed, len in *. lia. }
  cbn. apply IH.
Qed.

Section Feedback.

Variable bank : list Question.

Lemma per_question_feedback_over_spec (answers : list Z) (fb : list Feedback) :
  per_question_feedback_over bank answers = Ok fb ->
  length fb = length bank /\
  forall (i : nat) f, fb !! i = Some f ->
    exists q, bank !! i = Some q /\
      answers !! i = Some (chosen_index f) /\
      correct_index_of q = Ok (correct_index f) /\
      first_argmax (scores q) (correct_index f) /\
      (is_correct f = true <-> chosen_index f = correct_index f).
Proof.
  unfold per_question_feedback_over, correct_indices_over.
  destruct (mapM correct_index_of bank) as [cis|] eqn:Hcis; cbn; [|discriminate].
  apply mapM_result_Ok in Hcis.
  intros (new & -> & Hnew)%feedback_loop_spec. cbn [app].
  split.
  { apply Forall2_length in Hnew. unfold enumerate in Hnew.
    by rewrite length_enumerate_from in Hnew. }
  intros i f Hf.
  destruct (Forall2_lookup_r _ _ _ _ _ Hnew Hf) as ([k q] & Hp & Hentry).
  apply lookup_enumerate_from in Hp as [Hk Hq]. cbn in Hk, Hq. subst k.
  destruct Hentry as (Hch & Hci & Hcorrect & _). cbn in Hch, Hci.
  apply index_nonneg in Hch; [|lia]. apply index_nonneg in Hci; [|lia].
  replace (Z.to_nat (0 + Z.of_nat i)) with i in * by lia.
  exists q. split; [done|]. split; [done|].
  destruct (Forall2_lookup_l _ _ _ _ _ Hcis Hq) as (ci & Hci' & Hok).
  assert (ci = correct_index f) as -> by congruence.
  split; [done|]. split.
  - destruct (correct_index_of_spec q) as (k & Hk & Harg).
    { intros Hnil. unfold correct_index_of in Hok. by rewrite Hnil in Hok. }
    congruence.
  - rewrite Hcorrect. apply bool_decide_eq_true.
Qed.

Hypothesis bank_wf : Forall well_formed bank.
Hypothesis bank_scored : Forall (fun q => scores q <> []) bank.

Lemma per_question_feedback_over_total (answers : list Z) :
  valid_answers bank answers ->
  exists fb, per_question_feedback_over bank answers = Ok fb.
Proof using bank_wf bank_scored.
  intros Hvalid. unfold per_question_feedback_over, correct_indices_over.
  destruct (mapM_result_total correct_index_of bank) as [cis Hcis].
  { eapply Forall_impl; [exact bank_scored|]. intros q Hq.
    destruct (correct_index_of_spec q Hq) as (k & Hk & _). eauto. }
  rewrite Hcis. cbn. apply mapM_result_Ok in Hcis.
  apply feedback_loop_total. apply Forall_lookup. intros j [k q] Hp.
  apply lookup_enumerate_from in Hp as [Hk Hq]. cbn in Hk, Hq. subst k. cbn.
  pose proof (proj1 (Forall_lookup _ _) bank_wf _ _ Hq) as Hwf.
  pose proof (proj1 (Forall_lookup _ _) bank_scored _ _ Hq) as Hsc.
  destruct (Forall2_lookup_l _ _ _ _ _ Hvalid Hq) as (a & Ha & Hrange).
  destruct (Forall2_lookup_l _ _ _ _ _ Hcis Hq) as (ci & Hci & Hok).
  split; [done|]. exists a, ci.
  split. { apply index_nonneg; [lia|]. by replace (Z.to_nat (0 + Z.of_nat j)) with j by lia. }
  split. { apply index_nonneg; [lia|]. by replace (Z.to_nat (0 + Z.of_nat j)) with j by lia. }
  split; [lia|].
  destruct (correct_index_of_spec q Hsc) as (k & Hk & Hk0 & m & Hm & _).
  assert (k = ci) as -> by congruence.
  apply lookup_lt_Some in Hm. unfold well_formed, len in *. lia.
Qed.

End Feedback.

Lemma QUESTIONS_scored : Forall (fun q => scores q <> []) QUESTIONS.
Proof. repeat constructor; discriminate. Qed.

(** C7: for every question of the bank the correct index is the first
    position of the largest score; [submit]'s feedback carries that index,
    and marks a choice correct exactly when the chosen index equals it. *)
Theorem C7_correct_index_first_argmax :
  (forall q, q ∈ QUESTIONS ->
     exists k, correct_index_of q = Ok k /\ first_argmax (scores q) k) /\
  (forall answers, valid_answers QUESTIONS answers ->
     exists fb, per_question_feedback answers = Ok fb) /\
  (forall answers fb, per_question_feedback answers = Ok fb ->
     length fb = length QUESTIONS /\
     forall (i : nat) f, fb !! i = Some f ->
       exists q, QUESTIONS !! i = Some q /\
         answers !! i = Some (chosen_index f) /\
         correct_index_of q = Ok (correct_index f) /\
         first_argmax (scores q) (correct_index f) /\
         (is_correct f = true <-> chosen_index f = correct_index f)).
Proof.
  split; [|split].
  - intros q Hq. apply correct_index_of_spec.
    by apply (proj1 (Forall_forall _ _) QUESTIONS_scored).
  - apply per_question_feedback_over_total;
      [exact QUESTIONS_wf|exact QUESTIONS_scored].
  - apply per_question_feedback_over_spec.
Qed.

(** ** Length validation in [submit] *)

Lemma fallback_score_raises (answers : list Z) (e : exn) :
  fallback_score_from_answers answers = Raise e ->
  e = IndexError "list index out of range".
Proof.
  unfold fallback_score_from_answers, fallback_score_over, Py.zip.
  apply score_loop_raises.
  apply Forall_forall. intros [q a] (i & q' & a' & ? & Hq & _)%elem_of_lookup_zip_with.
  simplify_eq. cbn. by eapply (proj1 (Forall_lookup _ _) QUESTIONS_wf).
Qed.

Lemma per_question_feedback_raises (answers : list Z) (e : exn) :
  per_question_feedback answers = Raise e ->
  e = IndexError "list index out of range".
Proof.
  unfold per_question_feedback, per_question_feedback_over, correct_indices_over.
  destruct (mapM_result_total correct_index_of QUESTIONS) as [cis ->].
  { eapply Forall_impl; [exact QUESTIONS_scored|]. intros q Hq.
    destruct (correct_index_of_spec q Hq) as (k & Hk & _). eauto. }
  cbn [mbind result_bind]. apply feedback_loop_raises.
Qed.

Lemma len_eqb_length {A B} (l : list A) (k : list B) :
  (len l =? len k) = bool_decide (length l = length k).
Proof.
  unfold len. destruct (Z.eqb_spec (Z.of_nat (length l)) (Z.of_nat (length k)));
    symmetry; [apply bool_decide_eq_true|apply bool_decide_eq_false]; lia.
Qed.

Lemma score_loop_length (pairs : list (Question * Z)) :
  forall total per_q total' per_q',
    score_loop pairs total per_q = Ok (total', per_q') ->
    length per_q' = (length per_q + length pairs)%nat.
Proof.
  induction pairs as [|[q a] pairs IH]; intros total per_q total' per_q'; cbn.
  - intros [= _ <-]. lia.
  - destruct (index (scores q) a) as [sc|]; cbn; [|discriminate].
    destruct (index (options q) a) as [opt|]; cbn; [|discriminate].
    intros ->%IH. rewrite length_app. cbn. lia.
Qed.

(** C3, as the specification words it, fails: the scorer itself has no length check;
    given one answer it scores the first question alone, and given sixteen
    it scores the first fifteen. *)
Lemma C3_scorer_truncates_counterexample :
  length one_answer <> length QUESTIONS /\
  fallback_score_from_answers one_answer
    = Ok (10, [{| pq_question := "Which of the following best describes a 'for' loop?";
                  pq_selected := "A control flow statement for iterating";
                  pq_score := 10 |}]) /\
  length sixteen_answers <> length QUESTIONS /\
  exists per_q, fallback_score_from_answers sixteen_answers = Ok (32, per_q).
Proof.
  split; [discriminate|]. split; [reflexivity|]. split; [discriminate|].
  eexists. vm_compute. reflexivity.
Qed.

(** C3, amended: the length check is [submit]'s.  It rejects the request
    with its length error exactly when the number of answers differs from
    the number of questions, before anything is scored, stored or sent, and
    a response that is returned has one feedback entry per question.  The
    scorer called on its own checks no length: it scores as many answers as
    the shorter of the two lists has. *)
Theorem C3_length_checked_by_submit (host : Host) (MODEL : option ModelObj)
    (MODEL_TYPE : option string) (payload : SubmitPayload) (user : User)
    (w : World) :
  ((exists status detail,
      (submit host MODEL MODEL_TYPE payload user w).1
        = Raise (HTTPException status detail)) <->
   length (answers payload) <> length QUESTIONS) /\
  (length (answers payload) <> length QUESTIONS ->
   submit host MODEL MODEL_TYPE payload user w
     = (Raise (HTTPException 400 "Expected 15 answers"), w)) /\
  (forall resp,
     (submit host MODEL MODEL_TYPE payload user w).1 = Ok resp ->
     length (answers payload) = length QUESTIONS /\
     length (per_question resp) = length QUESTIONS) /\
  (forall total per_q,
     fallback_score_from_answers (answers payload) = Ok (total, per_q) ->
     length per_q = Nat.min (length QUESTIONS) (length (answers payload))).
Proof.
  assert (forall total per_q,
            fallback_score_from_answers (answers payload) = Ok (total, per_q) ->
            length per_q = Nat.min (length QUESTIONS) (length (answers payload)))
    as Htrunc.
  { intros total per_q ->%score_loop_length. unfold Py.zip.
    by rewrite length_zip_with. }
  unfold submit. rewrite len_eqb_length.
  destruct (decide (length (answers payload) = length QUESTIONS)) as [Heq|Hne].
  - rewrite bool_decide_eq_true_2 by done. cbn [negb].
    destruct (classify _ _ _ _ _) as [locals w1].
    destruct (fallback_score_from_answers (answers payload)) as [[total per_q]|e] eqn:Hs.
    + destruct (generate_roadmap_with_gemini _ _ _ _ _ _ _) as [plan w2].
      destruct (db_add _ _) as [res w3].
      destruct (per_question_feedback (answers payload)) as [fb|e] eqn:Hfb; cbn.
      * split; [split; [by intros (? & ? & ?)|done]|]. split; [done|].
        split; [|done]. intros resp [= <-]. cbn. split; [done|].
        by apply per_question_feedback_over_spec in Hfb as [? _].
      * apply per_question_feedback_raises in Hfb as ->.
        split; [split; [by intros (? & ? & ?)|done]|]. done.
    + apply fallback_score_raises in Hs as ->. cbn.
      split; [split; [by intros (? & ? & ?)|done]|]. done.
  - rewrite bool_decide_eq_false_2 by done. cbn [negb fst].
    split; [split; [done|eauto]|]. split; [|done].
    intros _. reflexivity.
Qed.

(** ** The roadmap *)

Section Roadmap.

Variable host : Host.
Variable w : World.
Variables (user_name : string) (total_score : Z).
Variables (per_q : list PerQuestion) (prediction : option string).

Lemma roadmap_without_key (api_key : option string) :
  truthy_str (or_str api_key (getenv w "GEMINI_API_KEY")) = false ->
  generate_roadmap_with_gemini host w api_key user_name total_score per_q prediction
    = (heuristic_plan, w).
Proof. intros H. unfold generate_roadmap_with_gemini. by rewrite H. Qed.

Lemma roadmap_with_key (api_key : option string) :
  truthy_str (or_str api_key (getenv w "GEMINI_API_KEY")) = true ->
  let req := gemini_request host (or_str api_key (getenv w "GEMINI_API_KEY"))
               user_name total_score per_q in
  generate_roadmap_with_gemini host w api_key user_name total_score per_q prediction
    = (try_return
         (r ← requests_post host req;
          _ ← raise_for_status r;
          resp ← r_json r;
          text ← response_text host resp;
          Ok (try_return (loads_value host text)
                         (fun _ => JObj [("summary", text)])))
         failure_summary,
       log_post w req).
Proof. intros H. unfold generate_roadmap_with_gemini. by rewrite H. Qed.

End Roadmap.

(** C4: with no per-request key and no [GEMINI_API_KEY] in the environment,
    every call returns the same static plan, with 6 weeks and 2 resources,
    and leaves the world as it was: no request is sent. *)
Theorem C4_no_credential_static_plan (host : Host) (w : World)
    (user_name : string) (total_score : Z) (per_q : list PerQuestion)
    (prediction : option string) :
  getenv w "GEMINI_API_KEY" = None ->
  generate_roadmap_with_gemini host w None user_name total_score per_q prediction
    = (heuristic_plan, w) /\
  entries "weeks" heuristic_plan = Some 6%nat /\
  entries "resources" heuristic_plan = Some 2%nat /\
  posted (generate_roadmap_with_gemini host w None user_name total_score per_q
            prediction).2 = posted w.
Proof.
  intros Henv.
  assert (generate_roadmap_with_gemini host w None user_name total_score per_q
            prediction = (heuristic_plan, w)) as Heq.
  { apply roadmap_without_key. cbn. by rewrite Henv. }
  rewrite Heq. done.
Qed.

Lemma C4_no_credential_static_plan_witness :
  generate_roadmap_with_gemini offline_host empty_world None "Ada" 150 [] None
    = (heuristic_plan, empty_world) /\
  entries "weeks" heuristic_plan = Some 6%nat /\
  entries "resources" heuristic_plan = Some 2%nat /\
  posted (generate_roadmap_with_gemini offline_host empty_world None "Ada" 150 []
            None).2 = posted empty_world.
Proof.
  apply (C4_no_credential_static_plan offline_host empty_world "Ada" 150 [] None).
  reflexivity.
Defined.

(** C10: an empty per-request key counts as no key: with no
    [GEMINI_API_KEY] in the environment the call returns the static plan,
    sends nothing, and agrees with the call that passes no key at all. *)
Theorem C10_empty_key_is_absent (host : Host) (w : World)
    (user_name : string) (total_score : Z) (per_q : list PerQuestion)
    (prediction : option string) :
  getenv w "GEMINI_API_KEY" = None ->
  generate_roadmap_with_gemini host w (Some "") user_name total_score per_q prediction
    = (heuristic_plan, w) /\
  generate_roadmap_with_gemini host w (Some "") user_name total_score per_q prediction
    = generate_roadmap_with_gemini host w None user_name total_score per_q prediction.
Proof.
  intros Henv.
  rewrite !roadmap_without_key by (cbn; by rewrite Henv). done.
Qed.

Lemma C10_empty_key_is_absent_witness :
  generate_roadmap_with_gemini offline_host empty_world (Some "") "Ada" 32 [] None
    = (heuristic_plan, empty_world) /\
  generate_roadmap_with_gemini offline_host empty_world (Some "") "Ada" 32 [] None
    = generate_roadmap_with_gemini offline_host empty_world None "Ada" 32 [] None.
Proof.
  apply (C10_empty_key_is_absent offline_host empty_world "Ada" 32 [] None).
  reflexivity.
Defined.

(** C5: with a key in hand, when the request raises or the response is
    rejected by [raise_for_status], the roadmap is a summary alone, its text
    announces the failed call, there are no weeks and no resources, and it
    is not the static plan; the one request was sent. *)
Theorem C5_failed_call_summary_only (host : Host) (w : World)
    (api_key : option string) (user_name : string) (total_score : Z)
    (per_q : list PerQuestion) (prediction : option string) (e : exn) :
  truthy_str (or_str api_key (getenv w "GEMINI_API_KEY")) = true ->
  call_fails host
    (gemini_request host (or_str api_key (getenv w "GEMINI_API_KEY"))
       user_name total_score per_q) e ->
  (generate_roadmap_with_gemini host w api_key user_name total_score per_q
     prediction).1
    = JObj [("summary",
             JStr ("Gemini call failed: " +:+ str_exn e +:+ ". Returning heuristic roadmap."))] /\
  has_key "weeks"
    (generate_roadmap_with_gemini host w api_key user_name total_score per_q
       prediction).1 = false /\
  has_key "resources"
    (generate_roadmap_with_gemini host w api_key user_name total_score per_q
       prediction).1 = false /\
  (generate_roadmap_with_gemini host w api_key user_name total_score per_q
     prediction).1 <> heuristic_plan /\
  posted
    (generate_roadmap_with_gemini host w api_key user_name total_score per_q
       prediction).2
    = posted w ++ [gemini_request host (or_str api_key (getenv w "GEMINI_API_KEY"))
                     user_name total_score per_q].
Proof.
  intros Hkey Hfail. rewrite roadmap_with_key by done. cbn [fst snd].
  assert (forall k : Response -> result json,
            try_return
              (r ← requests_post host
                     (gemini_request host (or_str api_key (getenv w "GEMINI_API_KEY"))
                        user_name total_score per_q);
               _ ← raise_for_status r; k r) failure_summary
            = failure_summary e) as ->.
  { intros k. destruct Hfail as [->|(r & -> & Hr)]; [done|].
    cbn. by rewrite Hr. }
  unfold failure_summary. repeat split; discriminate.
Qed.

Lemma C5_failed_call_summary_only_witness :
  (generate_roadmap_with_gemini offline_host empty_world (Some "secret") "Ada" 150
     [] None).1
    = JObj [("summary",
             JStr ("Gemini call failed: " +:+ "connection refused" +:+ ". Returning heuristic roadmap."))] /\
  has_key "weeks"
    (generate_roadmap_with_gemini offline_host empty_world (Some "secret") "Ada" 150
       [] None).1 = false /\
  has_key "resources"
    (generate_roadmap_with_gemini offline_host empty_world (Some "secret") "Ada" 150
       [] None).1 = false /\
  (generate_roadmap_with_gemini offline_host empty_world (Some "secret") "Ada" 150
     [] None).1 <> heuristic_plan /\
  posted
    (generate_roadmap_with_gemini offline_host empty_world (Some "secret") "Ada" 150
       [] None).2
    = posted empty_world ++
        [gemini_request offline_host
           (or_str (Some "secret") (getenv empty_world "GEMINI_API_KEY"))
           "Ada" 150 []].
Proof.
  apply (C5_failed_call_summary_only offline_host empty_world (Some "secret")
           "Ada" 150 [] None (LibraryError "connection refused")).
  - reflexivity.
  - left. reflexivity.
Defined.

Lemma truthy_false_iff (v : json) : truthy v = false <-> python_false v.
Proof.
  unfold python_false. destruct v as [|b|n|q|s|items|fields]; cbn.
  - split; [intros _; by left|done].
  - destruct b; split; try done.
    + intros [?|[?|[?|[(q & ? & _)|[?|[?|?]]]]]]; discriminate.
    + intros _. right. by left.
  - destruct (Z.eqb_spec n 0) as [->|Hn]; cbn; split; try done.
    + intros _. do 2 right. by left.
    + intros [?|[?|[[= ?]|[(q & ? & _)|[?|[?|?]]]]]]; done.
  - destruct (Z.eqb_spec (Qnum q) 0) as [Hq|Hq]; cbn; split; try done.
    + intros _. do 3 right. left. eauto.
    + intros [?|[?|[?|[(q' & [= <-] & ?)|[?|[?|?]]]]]]; done.
  - destruct (String.eqb_spec s "") as [->|Hs]; cbn; split; try done.
    + intros _. do 4 right. by left.
    + intros [?|[?|[?|[(q & ? & _)|[[= ?]|[?|?]]]]]]; done.
  - destruct items; split; try done.
    + intros _. do 5 right. by left.
    + intros [?|[?|[?|[(q & ? & _)|[?|[?|?]]]]]]; discriminate.
  - destruct fields; split; try done.
    + intros _. do 6 right. done.
    + intros [?|[?|[?|[(q & ? & _)|[?|[?|?]]]]]]; discriminate.
Qed.

Lemma truthy_default_false (o : option json) :
  truthy (default JNull o) = false <-> absent_or_false o.
Proof.
  unfold absent_or_false. destruct o as [v|]; cbn.
  - rewrite truthy_false_iff. split; [intros H; right; eauto|].
    by intros [?|(v' & [= <-] & ?)].
  - split; [by left|done].
Qed.

Lemma response_text_object (host : Host) (fields : list (string * json)) :
  response_text host (JObj fields)
    = Ok (if truthy (default JNull (assoc "output_text" fields))
          then default JNull (assoc "output_text" fields)
          else if truthy (default JNull (assoc "result" fields))
          then default JNull (assoc "result" fields)
          else JStr (json_dumps host (JObj fields))).
Proof.
  unfold response_text. cbn.
  destruct (truthy (default JNull (assoc "output_text" fields))); [done|].
  by destruct (truthy (default JNull (assoc "result" fields))).
Qed.

Section SuccessfulResponse.

Variables (host : Host) (w : World) (api_key : option string).
Variables (user_name : string) (total_score : Z).
Variables (per_q : list PerQuestion) (prediction : option string).

Local Abbreviation plan :=
  (generate_roadmap_with_gemini host w api_key user_name total_score per_q
     prediction).1.

(** The roadmap once the request has come back with an object. *)
Lemma roadmap_of_object (r : Response) (fields : list (string * json)) :
  truthy_str (or_str api_key (getenv w "GEMINI_API_KEY")) = true ->
  requests_post host
    (gemini_request host (or_str api_key (getenv w "GEMINI_API_KEY"))
       user_name total_score per_q) = Ok r ->
  raise_for_status r = Ok () ->
  r_json r = Ok (JObj fields) ->
  forall text,
    response_text host (JObj fields) = Ok text ->
    plan = try_return (loads_value host text) (fun _ => JObj [("summary", text)]).
Proof.
  intros Hkey Hpost Hstatus Hjson text Htext.
  rewrite roadmap_with_key by done. cbn [fst].
  rewrite Hpost. cbn [mbind result_bind]. rewrite Hstatus. cbn [mbind result_bind].
  rewrite Hjson. cbn [mbind result_bind]. by rewrite Htext.
Qed.

(** C8: with a key in hand and a response that passes [raise_for_status]
    and whose body is a JSON object, the text that is parsed with
    [json.loads] is [output_text] when that is a non-empty string, else
    [result] when that is one, else the serialised body; a value that
    [json.loads] returns is the roadmap, as it is, and when [json.loads]
    raises the roadmap is that text under [summary] and nothing else.  A
    field that is true but not a string is not parsed and comes back under
    [summary] too. *)
Theorem C8_successful_response (r : Response) (fields : list (string * json)) :
  truthy_str (or_str api_key (getenv w "GEMINI_API_KEY")) = true ->
  requests_post host
    (gemini_request host (or_str api_key (getenv w "GEMINI_API_KEY"))
       user_name total_score per_q) = Ok r ->
  raise_for_status r = Ok () ->
  r_json r = Ok (JObj fields) ->
  (forall s,
     (assoc "output_text" fields = Some (JStr s) /\ s <> "") \/
     (absent_or_false (assoc "output_text" fields) /\
      assoc "result" fields = Some (JStr s) /\ s <> "") \/
     (absent_or_false (assoc "output_text" fields) /\
      absent_or_false (assoc "result" fields) /\
      s = json_dumps host (JObj fields)) ->
     (forall v, json_loads host s = Ok v -> plan = v) /\
     (forall e, json_loads host s = Raise e ->
        plan = JObj [("summary", JStr s)] /\
        has_key "weeks" plan = false /\ has_key "resources" plan = false)) /\
  (forall t,
     (assoc "output_text" fields = Some t /\ ~ python_false t) \/
     (absent_or_false (assoc "output_text" fields) /\
      assoc "result" fields = Some t /\ ~ python_false t) ->
     (forall s, t <> JStr s) ->
     plan = JObj [("summary", t)] /\
     has_key "weeks" plan = false /\ has_key "resources" plan = false).
Proof.
  intros Hkey Hpost Hstatus Hjson.
  pose proof (roadmap_of_object r fields Hkey Hpost Hstatus Hjson _
                (response_text_object host fields)) as Hplan.
  assert (forall t, ~ python_false t -> truthy t = true) as Htrue.
  { intros t Ht. destruct (truthy t) eqn:E; [done|].
    by apply truthy_false_iff in E. }
  assert (forall s, s <> "" -> truthy (JStr s) = true) as Hstr.
  { intros s Hs. cbn. by destruct (String.eqb_spec s ""). }
  split.
  - intros s Hcase.
    assert (plan = try_return (json_loads host s)
                     (fun _ => JObj [("summary", JStr s)])) as ->.
    { rewrite Hplan.
      destruct Hcase as [[Ha Hs]|[(Ha & Hb & Hs)|(Ha & Hb & ->)]].
      - rewrite Ha. cbn [default from_option id]. by rewrite (Hstr s Hs).
      - apply truthy_default_false in Ha. rewrite Ha, Hb.
        cbn [default from_option id]. by rewrite (Hstr s Hs).
      - apply truthy_default_false in Ha, Hb. by rewrite Ha, Hb. }
    split; [by intros v ->|]. by intros e ->.
  - intros t Hcase Hnot.
    assert (plan = JObj [("summary", t)]) as ->.
    { rewrite Hplan.
      assert (loads_value host t
              = Raise (TypeError "the JSON object must be str, bytes or bytearray"))
        as Hload.
      { destruct t; try done. by destruct (Hnot s). }
      destruct Hcase as [[Ha Ht]|(Ha & Hb & Ht)].
      - rewrite Ha. cbn [default from_option id].
        rewrite (Htrue t Ht). by rewrite Hload.
      - apply truthy_default_false in Ha. rewrite Ha, Hb.
        cbn [default from_option id]. rewrite (Htrue t Ht). by rewrite Hload. }
    done.
Qed.

End SuccessfulResponse.

Lemma C8_successful_response_witness :
  (generate_roadmap_with_gemini
     (answering_host (JObj [("output_text", JStr sample_text);
                            ("result", JStr "ignored")]))
     empty_world (Some "secret") "Ada" 150 [] None).1 = JObj [].
Proof.
  apply (C8_successful_response
           (answering_host (JObj [("output_text", JStr sample_text);
                                  ("result", JStr "ignored")]))
           empty_world (Some "secret") "Ada" 150 [] None
           {| raise_for_status := Ok ();
              r_json := Ok (JObj [("output_text", JStr sample_text);
                                  ("result", JStr "ignored")]) |}
           [("output_text", JStr sample_text); ("result", JStr "ignored")]
           eq_refl eq_refl eq_refl eq_refl) with (s := sample_text).
  - left. split; [reflexivity|discriminate].
  - reflexivity.
Defined.

(** ** The classifier step *)

Lemma first_row_returns (proba : option (list (list string))) :
  exists row, first_row proba = Ok row.
Proof.
  unfold first_row. destruct proba as [[|r rows]|]; [by eexists| |by eexists].
  cbn [mbind result_bind].
  destruct (index_in_range (r :: rows) 0) as [x Hx].
  { unfold len. cbn [length]. lia. }
  rewrite Hx. by eexists.
Qed.

(** An exception leaves the model block before any local is assigned. *)
Lemma model_block_raises (host : Host) (MODEL : option ModelObj)
    (MODEL_TYPE : option string) (answers : list Z) (l0 l : Locals) (e : exn) :
  model_block host MODEL MODEL_TYPE answers l0 = (l, Some e) -> l = l0.
Proof.
  unfold model_block, eval, seq, set_label, set_score, assign, skip.
  destruct MODEL as [m|]; [|by intros [= <-]].
  destruct (features_from_answers answers) as [X|]; [|by intros [= <-]].
  destruct (bool_decide _).
  - destruct (predict m (OfArray X)) as [pred|]; [|by intros [= <-]].
    destruct (index pred 0) as [pred0|]; [|by intros [= <-]].
    destruct (first_row_returns
                (try_return (rows ← predict_proba m X; Ok (Some rows))
                   (fun _ => None))) as [row ->].
    discriminate.
  - destruct (xgboost_DMatrix host X) as [dmat|]; [|by intros [= <-]].
    destruct (predict m (OfDMatrix dmat)) as [preds|]; [|by intros [= <-]].
    discriminate.
Qed.

Lemma load_xgb_model_unusable (host : Host) (w : World) (path : string) :
  artifact_absent host w path \/ artifact_corrupted host path ->
  load_xgb_model host w path = (None, None).
Proof.
  unfold load_xgb_model.
  intros [[Hp Halt]|(Hp & [e He] & Hxgb)]; rewrite Hp; cbn.
  - by rewrite Halt.
  - rewrite He. destruct (xgb host) as [load_booster|]; [|done].
    by destruct Hxgb as [e' ->].
Qed.

(** C6: an absent or corrupted artifact loads nothing and gives an absent
    prediction; an exception anywhere in the model block is caught and gives
    an absent prediction; and whatever the model is or does, the total and
    the per-question list that [submit] returns (or the error it raises) are
    those of a run with no model at all. *)
Theorem C6_classifier_never_alters_score (host : Host) :
  (forall w0 path answers w,
     artifact_absent host w0 path \/ artifact_corrupted host path ->
     load_xgb_model host w0 path = (None, None) /\
     classify host (load_xgb_model host w0 path).1 (load_xgb_model host w0 path).2
       answers w
       = ({| prediction_label := None; model_score := None |}, w)) /\
  (forall MODEL MODEL_TYPE answers w l e,
     model_block host MODEL MODEL_TYPE answers
       {| prediction_label := None; model_score := None |} = (l, Some e) ->
     classify host MODEL MODEL_TYPE answers w
       = ({| prediction_label := None; model_score := None |},
          print w ("Model error: " +:+ str_exn e))) /\
  (forall MODEL MODEL_TYPE payload user w,
     score_part (submit host MODEL MODEL_TYPE payload user w).1
       = score_part (submit host None None payload user w).1).
Proof.
  split; [|split].
  - intros w0 path answers w H.
    rewrite (load_xgb_model_unusable host w0 path H). done.
  - intros MODEL MODEL_TYPE answers w l e H. unfold classify. rewrite H.
    by apply model_block_raises in H as ->.
  - intros MODEL MODEL_TYPE payload user w. unfold submit.
    destruct (negb _); [done|].
    destruct (classify host MODEL MODEL_TYPE _ _) as [l1 w1].
    destruct (classify host None None _ _) as [l2 w2].
    destruct (fallback_score_from_answers _) as [[total per_q]|e]; [|done].
    destruct (generate_roadmap_with_gemini host w1 _ _ _ _ _) as [plan1 w1'].
    destruct (generate_roadmap_with_gemini host w2 _ _ _ _ _) as [plan2 w2'].
    destruct (db_add w1' _) as [res1 w1''].
    destruct (db_add w2' _) as [res2 w2''].
    by destruct (per_question_feedback _).
Qed.

(** A run of [submit] with a model whose [predict] raises: the error is
    printed, the prediction stays absent, and the score is the scorer's. *)
Example submit_with_broken_model :
  exists resp w',
    submit offline_host (Some broken_model) (Some "sklearn")
      {| answers := best_answers; gemini_key := None |} sample_user empty_world
      = (Ok resp, w') /\
    total_score resp = 150 /\
    roadmap resp = heuristic_plan /\
    stdout w' = ["Model error: feature shape mismatch"] /\
    row_prediction <$> results w' = [None] /\
    posted w' = [].
Proof. do 2 eexists. split; [vm_compute; reflexivity|]. by repeat split. Qed.

(** * Further properties *)

(** ** The scorer, beyond valid vectors *)

Lemma index_elem {A} (l : list A) (i : Z) (x : A) :
  index l i = Ok x -> x ∈ l.
Proof.
  unfold index. destruct (_ || _); [discriminate|].
  destruct (l !! _) as [y|] eqn:E; [|discriminate].
  intros [= <-]. apply list_elem_of_lookup. eauto.
Qed.

Lemma index_shift {A} (l : list A) (i : Z) :
  0 <= i < len l -> index l (i - len l) = index l i.
Proof.
  intros Hi. unfold index.
  destruct (Z.ltb_spec (i - len l) 0) as [_|?]; [|lia].
  destruct (Z.ltb_spec i 0) as [?|_]; [lia|].
  by replace (i - len l + len l) with i by lia.
Qed.

Lemma score_loop_spec (pairs : list (Question * Z)) :
  forall total per_q total' per_q',
    score_loop pairs total per_q = Ok (total', per_q') ->
    exists new,
      per_q' = per_q ++ new /\
      total' = total + sum_Z (pq_score <$> new) /\
      Forall2 record_ok pairs new.
Proof.
  induction pairs as [|[q a] pairs IH]; intros total per_q total' per_q'; cbn.
  - intros [= <- <-]. exists []. rewrite app_nil_r. split; [done|].
    split; [unfold sum_Z; cbn; lia|constructor].
  - destruct (index (scores q) a) as [sc|] eqn:Hsc; cbn; [|discriminate].
    destruct (index (options q) a) as [opt|] eqn:Hopt; cbn; [|discriminate].
    intros (new & -> & -> & Hnew)%IH. eexists (_ :: new).
    rewrite <- app_assoc. split; [reflexivity|].
    split; [unfold sum_Z; cbn; lia|].
    constructor; [|done]. by repeat split.
Qed.

Lemma sum_Z_bounds (lo hi : Z) (l : list Z) :
  Forall (fun x => lo <= x <= hi) l ->
  lo * len l <= sum_Z l <= hi * len l.
Proof.
  unfold len. induction 1 as [|x l Hx _ IH]; cbn [sum_Z foldr length]; [lia|].
  fold (sum_Z l). lia.
Qed.

Lemma QUESTIONS_scores_range :
  Forall (fun q => Forall (fun s => 1 <= s <= 10) (scores q)) QUESTIONS.
Proof. repeat constructor; cbn; lia. Qed.

(** X1: whatever the answers, a total that the scorer returns lies between
    one point and ten points per scored answer, so never above 150, and
    every record carries between 1 and 10 points. *)
Theorem X1_total_bounds (answers : list Z) (total : Z) (per_q : list PerQuestion) :
  fallback_score_from_answers answers = Ok (total, per_q) ->
  Forall (fun r => 1 <= pq_score r <= 10) per_q /\
  len per_q <= total <= 10 * len per_q /\
  total <= 150.
Proof.
  unfold fallback_score_from_answers, fallback_score_over. intros H.
  pose proof (score_loop_length _ _ _ _ _ H) as Hlen.
  apply score_loop_spec in H as (new & -> & -> & Hnew). cbn [app] in *.
  assert (Forall (fun r => 1 <= pq_score r <= 10) new) as Hall.
  { apply Forall_lookup. intros i r Hr.
    destruct (Forall2_lookup_r _ _ _ _ _ Hnew Hr) as ([q a] & Hp & Hsc & _).
    cbn in Hsc. apply index_elem in Hsc.
    unfold Py.zip in Hp. apply lookup_zip_with_Some in Hp as (q' & a' & ? & Hq & _).
    simplify_eq.
    pose proof (proj1 (Forall_lookup _ _) QUESTIONS_scores_range _ _ Hq) as Hrange.
    by apply (proj1 (Forall_forall _ _) Hrange). }
  split; [done|].
  pose proof (sum_Z_bounds 1 10 (pq_score <$> new)) as Hb.
  rewrite Forall_fmap in Hb. specialize (Hb Hall).
  unfold len in *. rewrite length_fmap in Hb.
  unfold Py.zip in Hlen. rewrite length_zip_with in Hlen.
  assert (length new <= 15)%nat by (rewrite Hlen; apply Nat.le_min_l).
  clear Hlen. cbn [length Nat.add] in *. split; lia.
Qed.

Lemma X1_total_bounds_witness :
  Forall (fun r => 1 <= pq_score r <= 10)
    [{| pq_question := "Which of the following best describes a 'for' loop?";
        pq_selected := "A control flow statement for iterating";
        pq_score := 10 |}] /\
  len [{| pq_question := "Which of the following best describes a 'for' loop?";
          pq_selected := "A control flow statement for iterating";
          pq_score := 10 |}] <= 10
    <= 10 * len [{| pq_question := "Which of the following best describes a 'for' loop?";
                    pq_selected := "A control flow statement for iterating";
                    pq_score := 10 |}] /\
  10 <= 150.
Proof.
  apply (X1_total_bounds one_answer 10
           [{| pq_question := "Which of the following best describes a 'for' loop?";
               pq_selected := "A control flow statement for iterating";
               pq_score := 10 |}]).
  reflexivity.
Defined.

Lemma exact_total_cons (q : Question) (a : Z) (bank : list Question)
    (answers : list Z) :
  exact_total (q :: bank) (a :: answers)
    = picked_score q a + exact_total bank answers.
Proof. reflexivity. Qed.

(** When every question has one option worth the top mark [top], the
    exact total reaches [top] points per question only on that vector. *)
Lemma exact_total_top (top : Z) (bank : list Question) (best : list Z) :
  Forall2 (fun q b => forall a, 0 <= a < len (options q) ->
             picked_score q a <= top /\ (picked_score q a = top <-> a = b))
    bank best ->
  forall answers, valid_answers bank answers ->
    exact_total bank answers <= top * len bank /\
    (exact_total bank answers = top * len bank <-> answers = best).
Proof.
  unfold len at 2 3.
  induction 1 as [|q b bank best Hq _ IH]; intros answers Hvalid.
  - apply Forall2_nil_inv_l in Hvalid as ->. cbn. split; [lia|]. split; [done|lia].
  - apply Forall2_cons_inv_l in Hvalid as (a & answers' & Ha & Hrest & ->).
    destruct (Hq a Ha) as [Hle Hiff]. destruct (IH answers' Hrest) as [IHle IHiff].
    rewrite exact_total_cons. cbn [length]. split; [lia|]. split.
    + intros Hsum. f_equal; [apply Hiff|apply IHiff]; lia.
    + intros [= -> ->].
      assert (picked_score q b = top) by by apply Hiff.
      assert (exact_total bank best = top * Z.of_nat (length bank)) by by apply IHiff.
      lia.
Qed.

Lemma QUESTIONS_best :
  Forall2 (fun q b => forall a, 0 <= a < len (options q) ->
             picked_score q a <= 10 /\ (picked_score q a = 10 <-> a = b))
    QUESTIONS best_answers.
Proof.
  unfold QUESTIONS, best_answers.
  repeat (constructor;
    [intros a Ha; unfold len in Ha; cbn in Ha;
     assert (a = 0 \/ a = 1 \/ a = 2 \/ a = 3) as [H|[H|[H|H]]] by lia;
     subst a; unfold picked_score;
     repeat match goal with
       | |- context [default 0 ?t] =>
           let v := eval vm_compute in (default 0 t) in
           change (default 0 t) with v
       end;
     (split; [lia|split; [intros ?; lia|intros ?; lia]])|]).
  constructor.
Qed.

(** X2: among valid vectors, the full 150 points are returned for the
    all-best vector and for no other. *)
Theorem X2_perfect_score_iff (answers : list Z) :
  valid_answers QUESTIONS answers ->
  (exists per_q, fallback_score_from_answers answers = Ok (150, per_q)) <->
  answers = best_answers.
Proof.
  intros Hvalid.
  destruct (score_loop_valid QUESTIONS QUESTIONS_wf answers Hvalid 0 [])
    as (new & Heq & _).
  destruct (exact_total_top 10 QUESTIONS best_answers QUESTIONS_best answers Hvalid)
    as [_ Hiff].
  unfold fallback_score_from_answers, fallback_score_over. rewrite Heq.
  change (10 * len QUESTIONS) with 150 in Hiff. rewrite <- Hiff. split.
  - intros [per_q [= H _]]. lia.
  - intros H. exists new. cbn [app]. do 2 f_equal. lia.
Qed.

Lemma X2_perfect_score_iff_witness :
  (exists per_q, fallback_score_from_answers zero_answers = Ok (150, per_q)) <->
  zero_answers = best_answers.
Proof.
  apply (X2_perfect_score_iff zero_answers).
  unfold valid_answers, zero_answers, QUESTIONS.
  repeat (constructor; [unfold len; simpl; lia|]). constructor.
Defined.

Lemma score_loop_shift (n : Z) (bank : list Question) (answers : list Z) :
  Forall (fun q => len (options q) = n /\ len (scores q) = n) bank ->
  valid_answers bank answers ->
  forall total per_q,
    score_loop (zip bank ((fun a => a - n) <$> answers)) total per_q
      = score_loop (zip bank answers) total per_q.
Proof.
  intros Hbank Hvalid. revert Hbank. unfold Py.zip.
  induction Hvalid as [|q a bank answers Ha _ IH]; intros Hbank total per_q;
    [done|].
  apply Forall_cons in Hbank as [[Ho Hs] Hbank].
  assert (index (scores q) (a - n) = index (scores q) a) as Es
    by (rewrite <- Hs; apply index_shift; lia).
  assert (index (options q) (a - n) = index (options q) a) as Eo
    by (rewrite <- Ho; apply index_shift; lia).
  cbn -[index]. rewrite Es, Eo.
  destruct (index (scores q) a); cbn -[index]; [|done].
  destruct (index (options q) a); cbn -[index]; [|done].
  by apply IH.
Qed.

Lemma QUESTIONS_four :
  Forall (fun q => len (options q) = 4 /\ len (scores q) = 4) QUESTIONS.
Proof. repeat constructor. Qed.

(** X3: an answer written as a negative subscript is scored as the option
    it reaches from the end: lowering every entry of a valid vector by 4
    changes neither the total nor any record. *)
Theorem X3_negative_subscripts_alias (answers : list Z) :
  valid_answers QUESTIONS answers ->
  fallback_score_from_answers ((fun a => a - 4) <$> answers)
    = fallback_score_from_answers answers.
Proof.
  intros Hvalid. unfold fallback_score_from_answers, fallback_score_over.
  by apply score_loop_shift; [exact QUESTIONS_four|].
Qed.

Lemma X3_negative_subscripts_alias_witness :
  fallback_score_from_answers ((fun a => a - 4) <$> best_answers)
    = fallback_score_from_answers best_answers.
Proof.
  apply (X3_negative_subscripts_alias best_answers).
  unfold valid_answers, best_answers, QUESTIONS.
  repeat (constructor; [unfold len; simpl; lia|]). constructor.
Defined.

(** ** The feature encoder and the model block *)

Lemma features_from_answers_ok (answers : list Z) :
  length answers = length QUESTIONS ->
  features_from_answers answers = Ok [answers].
Proof.
  intros H. unfold features_from_answers. rewrite len_eqb_length.
  by rewrite bool_decide_eq_true_2.
Qed.

(** X4: the encoder returns the one-row matrix of the answers exactly when
    there are 15 of them and raises its [ValueError] otherwise; a model
    block run on a vector of another length never consults the model: the
    error is printed and the prediction is absent. *)
Theorem X4_encoder_length_check (host : Host) (answers : list Z) :
  (features_from_answers answers = Ok [answers] <->
   length answers = length QUESTIONS) /\
  (length answers <> length QUESTIONS ->
   features_from_answers answers
     = Raise (ValueError ("Expected 15 answers, got " +:+ pretty (len answers))) /\
   forall m MODEL_TYPE w,
     classify host (Some m) MODEL_TYPE answers w
       = ({| prediction_label := None; model_score := None |},
          print w ("Model error: Expected 15 answers, got " +:+ pretty (len answers)))).
Proof.
  assert (length answers <> length QUESTIONS ->
          features_from_answers answers
            = Raise (ValueError ("Expected 15 answers, got " +:+ pretty (len answers))))
    as Hraise.
  { intros H. unfold features_from_answers. rewrite len_eqb_length.
    by rewrite bool_decide_eq_false_2. }
  split; [split|].
  - intros H. destruct (decide (length answers = length QUESTIONS)); [done|].
    rewrite Hraise in H by done. discriminate.
  - apply features_from_answers_ok.
  - intros H. split; [by apply Hraise|]. intros m MODEL_TYPE w.
    unfold classify, model_block, eval. by rewrite (Hraise H).
Qed.

(** X5: with a model loaded by [joblib] whose [predict] returns a non-empty
    array, the prediction is the first entry, whether or not
    [predict_proba] works; the model score is the first row of the
    probabilities when there is one and absent otherwise.  Nothing is
    printed. *)
Theorem X5_sklearn_prediction (host : Host) (m : ModelObj) (answers : list Z)
    (w : World) (label : string) (others : list string) :
  length answers = length QUESTIONS ->
  predict m (OfArray [answers]) = Ok (label :: others) ->
  classify host (Some m) (Some "sklearn") answers w
    = ({| prediction_label := Some label;
          model_score :=
            match predict_proba m [answers] with
            | Ok (row :: _) => Some row
            | _ => None
            end |}, w).
Proof.
  intros Hlen Hpred. unfold classify, model_block, eval, seq, set_label, set_score, assign.
  rewrite (features_from_answers_ok _ Hlen). cbn [bool_decide decide]. 
  rewrite bool_decide_eq_true_2 by done. rewrite Hpred.
  assert (index (label :: others) 0 = Ok label) as -> by reflexivity.
  destruct (predict_proba m [answers]) as [[|row rows]|e]; try done.
Qed.

Lemma X5_sklearn_prediction_witness :
  classify offline_host
    (Some {| predict := fun _ => Ok ["advanced"];
             predict_proba := fun _ => Raise (LibraryError "no probabilities") |})
    (Some "sklearn") best_answers empty_world
    = ({| prediction_label := Some "advanced"; model_score := None |}, empty_world).
Proof.
  apply (X5_sklearn_prediction offline_host
           {| predict := fun _ => Ok ["advanced"];
              predict_proba := fun _ => Raise (LibraryError "no probabilities") |}
           best_answers empty_world "advanced" []); reflexivity.
Defined.

(** X6: a model with any other type tag is used as a booster: the answers
    go through [DMatrix], and the prediction is the printed list of all
    predicted values, which is also the model score. *)
Theorem X6_booster_prediction (host : Host) (m : ModelObj)
    (MODEL_TYPE : option string) (answers : list Z) (w : World)
    (dmat : DMatrix) (preds : list string) :
  length answers = length QUESTIONS ->
  MODEL_TYPE <> Some "sklearn" ->
  xgboost_DMatrix host [answers] = Ok dmat ->
  predict m (OfDMatrix dmat) = Ok preds ->
  classify host (Some m) MODEL_TYPE answers w
    = ({| prediction_label := Some (str_list preds); model_score := Some preds |}, w).
Proof.
  intros Hlen Htype Hd Hpred.
  unfold classify, model_block, eval, seq, set_label, set_score, assign.
  rewrite (features_from_answers_ok _ Hlen).
  rewrite bool_decide_eq_false_2 by done. by rewrite Hd, Hpred.
Qed.

Lemma X6_booster_prediction_witness :
  classify offline_host
    (Some {| predict := fun _ => Ok ["0.25"; "0.75"];
             predict_proba := fun _ => Raise (LibraryError "not an estimator") |})
    (Some "booster") best_answers empty_world
    = ({| prediction_label := Some (str_list ["0.25"; "0.75"]);
          model_score := Some ["0.25"; "0.75"] |}, empty_world).
Proof.
  apply (X6_booster_prediction offline_host
           {| predict := fun _ => Ok ["0.25"; "0.75"];
              predict_proba := fun _ => Raise (LibraryError "not an estimator") |}
           (Some "booster") best_answers empty_world (DMat [best_answers])
           ["0.25"; "0.75"]); [reflexivity|discriminate|reflexivity|reflexivity].
Defined.

(** ** Loading the model *)

(** X7: the loader returns a model and its type tag together or neither;
    the tag is "sklearn" exactly for an object that [joblib] loaded and
    "booster" for one that only the booster loader accepted, and the file
    read is the given path when it exists and the one named by
    [XGB_MODEL_PATH] otherwise. *)
Theorem X7_loader_outcomes (host : Host) (w : World) (path : string) :
  let file := if path_exists host path then path
              else default path (getenv w "XGB_MODEL_PATH") in
  (path_exists host file = false /\
   load_xgb_model host w path = (None, None)) \/
  (path_exists host file = true /\
   ((exists m, joblib_load host file = Ok m /\
               load_xgb_model host w path = (Some m, Some "sklearn")) \/
    (exists e load_booster b,
       joblib_load host file = Raise e /\ xgb host = Some load_booster /\
       load_booster file = Ok b /\
       load_xgb_model host w path = (Some b, Some "booster")) \/
    ((exists e, joblib_load host file = Raise e) /\
     (forall load_booster, xgb host = Some load_booster ->
        exists e, load_booster file = Raise e) /\
     load_xgb_model host w path = (None, None)))).
Proof.
  unfold load_xgb_model.
  destruct (path_exists host path) eqn:Hp; cbn [negb].
  - right. rewrite Hp. split; [done|].
    destruct (joblib_load host path) as [m|e]; [left; eauto|right].
    destruct (xgb host) as [load_booster|] eqn:Hx.
    + destruct (load_booster path) as [b|e'] eqn:Hb.
      * left. eauto 10.
      * right. split; [eauto|]. split; [|done].
        intros ? [= <-]. eauto.
    + right. split; [eauto|]. split; [|done]. intros ? [=].
  - set (alt := default path (getenv w "XGB_MODEL_PATH")).
    destruct (path_exists host alt) eqn:Ha; [|by left].
    right. split; [done|].
    destruct (joblib_load host alt) as [m|e]; [left; eauto|right].
    destruct (xgb host) as [load_booster|] eqn:Hx.
    + destruct (load_booster alt) as [b|e'] eqn:Hb.
      * left. eauto 10.
      * right. split; [eauto|]. split; [|done].
        intros ? [= <-]. eauto.
    + right. split; [eauto|]. split; [|done]. intros ? [=].
Qed.

(** ** [submit] as a whole *)

Lemma correct_indices_QUESTIONS :
  exists cis, correct_indices_over QUESTIONS = Ok cis /\
    Forall2 (fun q k => correct_index_of q = Ok k) QUESTIONS cis.
Proof.
  destruct (mapM_result_total correct_index_of QUESTIONS) as [cis Hcis].
  { eapply Forall_impl; [exact QUESTIONS_scored|]. intros q Hq.
    destruct (correct_index_of_spec q Hq) as (k & Hk & _). eauto. }
  exists cis. split; [done|]. by apply mapM_result_Ok.
Qed.

Lemma per_question_feedback_entries (answers : list Z) (fb : list Feedback) :
  per_question_feedback answers = Ok fb ->
  exists cis,
    Forall2 (fun q k => correct_index_of q = Ok k) QUESTIONS cis /\
    Forall2 (entry_ok answers cis) (enumerate QUESTIONS) fb.
Proof.
  unfold per_question_feedback, per_question_feedback_over.
  destruct correct_indices_QUESTIONS as (cis & -> & Hcis). cbn [mbind result_bind].
  intros (new & -> & Hnew)%feedback_loop_spec. eauto.
Qed.

Lemma lookup_enumerate {A} (l : list A) (j : nat) (x : A) :
  l !! j = Some x -> enumerate l !! j = Some (Z.of_nat j, x).
Proof.
  unfold enumerate. intros Hx.
  destruct (lookup_lt_is_Some_2 (enumerate_from 0 l) j) as [p Hp].
  { rewrite length_enumerate_from. by eapply lookup_lt_Some. }
  rewrite Hp. apply lookup_enumerate_from in Hp as [H1 H2].
  destruct p as [k y]. cbn in *. f_equal. f_equal; [lia|congruence].
Qed.

Lemma index_of_nat {A} (l : list A) (j : nat) (x : A) :
  index l (Z.of_nat j) = Ok x <-> l !! j = Some x.
Proof. rewrite index_nonneg by lia. by rewrite Nat2Z.id. Qed.

(** Once the scorer has returned for a vector of the right length, the
    feedback loop returns too, and speaks of the same choices. *)
Lemma feedback_after_score (answers : list Z) (total : Z)
    (per_q : list PerQuestion) :
  length answers = length QUESTIONS ->
  fallback_score_from_answers answers = Ok (total, per_q) ->
  total = sum_Z (pq_score <$> per_q) /\
  exists fb, per_question_feedback answers = Ok fb /\
    Forall2 same_choice per_q fb.
Proof.
  intros Hlen Hscore.
  unfold fallback_score_from_answers, fallback_score_over in Hscore.
  apply score_loop_spec in Hscore as (new & -> & -> & Hnew). cbn [app].
  split; [lia|].
  assert (forall (j : nat) q, QUESTIONS !! j = Some q ->
            exists a r, answers !! j = Some a /\ new !! j = Some r /\
                        record_ok (q, a) r) as Hrec.
  { intros j q Hq.
    destruct (lookup_lt_is_Some_2 answers j) as [a Ha].
    { rewrite Hlen. by eapply lookup_lt_Some. }
    assert (zip QUESTIONS answers !! j = Some (q, a)) as Hp.
    { unfold Py.zip. apply lookup_zip_with_Some. eauto. }
    destruct (Forall2_lookup_l _ _ _ _ _ Hnew Hp) as (r & Hr & Hok). eauto. }
  destruct correct_indices_QUESTIONS as (cis & Hcis & Hall).
  assert (exists fb, per_question_feedback answers = Ok fb) as [fb Hfb].
  { unfold per_question_feedback, per_question_feedback_over. rewrite Hcis.
    cbn [mbind result_bind]. apply feedback_loop_total.
    apply Forall_lookup. intros j [k q] Hp.
    apply lookup_enumerate_from in Hp as [Hk Hq]. cbn in Hk, Hq. subst k. cbn.
    pose proof (proj1 (Forall_lookup _ _) QUESTIONS_wf _ _ Hq) as Hwf.
    pose proof (proj1 (Forall_lookup _ _) QUESTIONS_scored _ _ Hq) as Hsc.
    destruct (Hrec j q Hq) as (a & r & Ha & Hr & _ & Hopt & _). cbn in Hopt.
    destruct (Forall2_lookup_l _ _ _ _ _ Hall Hq) as (ci & Hci & Hok).
    split; [done|]. exists a, ci.
    split; [by apply index_of_nat|]. split; [by apply index_of_nat|].
    split; [by eapply index_ok_range|].
    destruct (correct_index_of_spec q Hsc) as (k & Hk & Hk0 & m & Hm & _).
    assert (k = ci) as -> by congruence.
    apply lookup_lt_Some in Hm. unfold well_formed, len in *. lia. }
  exists fb. split; [done|].
  apply per_question_feedback_entries in Hfb as (cis' & _ & Hentries).
  apply Forall2_same_length_lookup_2.
  { apply Forall2_length in Hnew, Hentries. unfold Py.zip, enumerate in *.
    rewrite length_zip_with in Hnew. rewrite length_enumerate_from in Hentries.
    rewrite <- Hnew, <- Hentries, Hlen. apply Nat.min_id. }
  intros j r f Hr Hf.
  destruct (Forall2_lookup_r _ _ _ _ _ Hentries Hf) as ([k q] & Hp & Hentry).
  apply lookup_enumerate_from in Hp as [Hk Hq]. cbn in Hk, Hq. subst k.
  destruct (Hrec j q Hq) as (a & r' & Ha & Hr' & Hs & Ho & Hqn).
  assert (r' = r) as -> by congruence. cbn in Hs, Ho, Hqn.
  destruct Hentry as (Hch & _ & _ & Hfq & Hct & _ & Hsf). cbn in Hch, Hfq, Hct, Hsf.
  apply index_of_nat in Hch. assert (chosen_index f = a) as Hca by congruence.
  rewrite Hca in *. unfold same_choice. repeat split; congruence.
Qed.

Lemma classify_store (host : Host) (MODEL : option ModelObj)
    (MODEL_TYPE : option string) (answers : list Z) (w : World) :
  same_store w (classify host MODEL MODEL_TYPE answers w).2.
Proof. unfold classify. by destruct (model_block _ _ _ _ _) as [l [e|]]. Qed.

Lemma roadmap_frame (host : Host) (w : World) (api_key : option string)
    (user_name : string) (total_score : Z) (per_q : list PerQuestion)
    (prediction : option string) :
  environ (generate_roadmap_with_gemini host w api_key user_name total_score
             per_q prediction).2 = environ w /\
  stdout (generate_roadmap_with_gemini host w api_key user_name total_score
            per_q prediction).2 = stdout w /\
  results (generate_roadmap_with_gemini host w api_key user_name total_score
             per_q prediction).2 = results w.
Proof. unfold generate_roadmap_with_gemini. by destruct (negb _). Qed.

(** X8: in every response of [submit] the total is the sum of the points
    shown per question, and each feedback entry shows the question, the
    option text and the points of the scorer's record for that question. *)
Theorem X8_total_matches_feedback (host : Host) (MODEL : option ModelObj)
    (MODEL_TYPE : option string) (payload : SubmitPayload) (user : User)
    (w w' : World) (resp : SubmitResponse) :
  submit host MODEL MODEL_TYPE payload user w = (Ok resp, w') ->
  total_score resp = sum_Z (score_for_choice <$> per_question resp) /\
  exists per_q,
    fallback_score_from_answers (answers payload) = Ok (total_score resp, per_q) /\
    Forall2 same_choice per_q (per_question resp).
Proof.
  unfold submit. rewrite len_eqb_length.
  destruct (decide (length (answers payload) = length QUESTIONS)) as [Hlen|Hne];
    [rewrite bool_decide_eq_true_2 by done
    |rewrite bool_decide_eq_false_2 by done; discriminate].
  cbn [negb]. destruct (classify _ _ _ _ _) as [locals w1].
  destruct (fallback_score_from_answers (answers payload))
    as [[total per_q]|e] eqn:Hs; [|discriminate].
  destruct (generate_roadmap_with_gemini _ _ _ _ _ _ _) as [plan w2].
  destruct (db_add _ _) as [res w3].
  destruct (feedback_after_score _ _ _ Hlen Hs) as (Hsum & fb & Hfb & Hsame).
  rewrite Hfb. intros [= <- <-]. cbn. split; [|eauto].
  rewrite Hsum. f_equal. clear -Hsame.
  induction Hsame as [|r f per_q fb (_ & _ & Hrf) _ IH]; [done|].
  cbn. by rewrite Hrf, IH.
Qed.

Lemma X8_total_matches_feedback_witness :
  exists resp w',
    submit offline_host None None {| answers := one_answer ++ replicate 14 0;
                                     gemini_key := None |} sample_user empty_world
      = (Ok resp, w') /\
    total_score resp = sum_Z (score_for_choice <$> per_question resp) /\
    exists per_q,
      fallback_score_from_answers (one_answer ++ replicate 14 0)
        = Ok (total_score resp, per_q) /\
      Forall2 same_choice per_q (per_question resp).
Proof.
  do 2 eexists. split; [vm_compute; reflexivity|].
  eapply (X8_total_matches_feedback offline_host None None
            {| answers := one_answer ++ replicate 14 0; gemini_key := None |}
            sample_user empty_world).
  vm_compute. reflexivity.
Defined.



Lemma largest_plus_one_fresh (keys : list Z) :
  foldr Z.max 0 keys + 1 ∉ keys.
Proof.
  assert (Forall (fun k => k < foldr Z.max 0 keys + 1) keys) as Hall.
  { induction keys as [|k keys IH]; cbn; [constructor|].
    constructor; [lia|]. eapply Forall_impl; [exact IH|]. cbn. lia. }
  intros Hin. pose proof (proj1 (Forall_forall _ _) Hall _ Hin) as H.
  cbv beta in H. lia.
Qed.

(** X10: a response of [submit] comes with exactly one new row, the last of
    the table: its key is the returned [result_id], a key that no row had,
    so that keys that did not repeat before do not repeat after; the row
    holds the user, the answers as sent, the returned total and roadmap, and
    the prediction of the model block. *)
Theorem X10_response_matches_stored_row (host : Host) (MODEL : option ModelObj)
    (MODEL_TYPE : option string) (payload : SubmitPayload) (user : User)
    (w w' : World) (resp : SubmitResponse) :
  submit host MODEL MODEL_TYPE payload user w = (Ok resp, w') ->
  (result_id resp ∉ (row_id <$> results w)) /\
  (NoDup (row_id <$> results w) -> NoDup (row_id <$> results w')) /\
  environ w' = environ w /\
  results w' = results w ++
    [{| row_id := result_id resp; row_user_id := user_id user;
        row_features := answers payload; row_score := total_score resp;
        row_prediction :=
          prediction_label (classify host MODEL MODEL_TYPE (answers payload) w).1;
        row_roadmap := roadmap resp |}].
Proof.
  unfold submit. destruct (negb _); [discriminate|].
  pose proof (classify_store host MODEL MODEL_TYPE (answers payload) w)
    as (Henv & Hres & _).
  destruct (classify _ _ _ _ _) as [locals w1]. cbn [fst snd] in *.
  destruct (fallback_score_from_answers (answers payload))
    as [[total per_q]|e0]; [|discriminate].
  pose proof (roadmap_frame host w1 (gemini_key payload) (user_name user) total
                per_q (prediction_label locals)) as (Henv2 & _ & Hres2).
  destruct (generate_roadmap_with_gemini _ _ _ _ _ _ _) as [plan w2].
  cbn [snd] in *. unfold db_add.
  destruct (per_question_feedback (answers payload)) as [fb|]; [|discriminate].
  intros [= <- <-]. cbn [result_id total_score roadmap row_id results environ].
  rewrite Hres2, Hres, Henv2, Henv.
  pose proof (largest_plus_one_fresh (row_id <$> results w)) as Hfresh.
  split; [done|]. split; [|done].
  intros Hnd. rewrite fmap_app. cbn [fmap list_fmap row_id].
  apply NoDup_app. split; [done|]. split; [|apply NoDup_singleton].
  intros k Hk ->%list_elem_of_singleton. done.
Qed.

Lemma X10_response_matches_stored_row_witness :
  exists resp w',
    submit offline_host None None {| answers := zero_answers; gemini_key := None |}
      sample_user empty_world = (Ok resp, w') /\
    (result_id resp ∉ (row_id <$> results empty_world)) /\
    (NoDup (row_id <$> results empty_world) -> NoDup (row_id <$> results w')) /\
    environ w' = environ empty_world /\
    results w' = results empty_world ++
      [{| row_id := result_id resp; row_user_id := user_id sample_user;
          row_features := zero_answers; row_score := total_score resp;
          row_prediction :=
            prediction_label (classify offline_host None None zero_answers empty_world).1;
          row_roadmap := roadmap resp |}].
Proof.
  do 2 eexists. split; [vm_compute; reflexivity|].
  eapply (X10_response_matches_stored_row offline_host None None
            {| answers := zero_answers; gemini_key := None |} sample_user
            empty_world).
  vm_compute. reflexivity.
Defined.

(** In every question of the bank the correct index is the one option
    worth 10 points; a subscript reaches it directly or from the end. *)
Lemma QUESTIONS_top_option :
  Forall (fun q => exists k,
            correct_index_of q = Ok k /\
            forall a s, index (scores q) a = Ok s ->
              (s = 10 <-> a = k \/ a = k - 4)) QUESTIONS.
Proof.
  unfold QUESTIONS.
  repeat (constructor;
    [eexists; split; [vm_compute; reflexivity|];
     intros a s H; pose proof (index_ok_range _ _ _ H) as Hr;
     unfold len in Hr; cbn in Hr;
     assert (a = -4 \/ a = -3 \/ a = -2 \/ a = -1 \/
             a = 0 \/ a = 1 \/ a = 2 \/ a = 3)
       as [E|[E|[E|[E|[E|[E|[E|E]]]]]]] by lia;
     subst a; vm_compute in H; injection H as <-; lia|]).
  constructor.
Qed.

(** X11: a feedback entry is marked correct exactly when the chosen index
    is not negative and the choice earned 10 points.  A top-scoring option
    reached through a negative index earns its 10 points and is still
    marked incorrect, as the all-best vector lowered by 4 shows. *)
Theorem X11_marked_correct_iff :
  (forall answers fb, per_question_feedback answers = Ok fb ->
     Forall (fun f => is_correct f = true <->
                      0 <= chosen_index f /\ score_for_choice f = 10) fb) /\
  (exists fb, per_question_feedback ((fun a => a - 4) <$> best_answers) = Ok fb /\
     length fb = 15%nat /\
     Forall (fun f => score_for_choice f = 10 /\ is_correct f = false) fb).
Proof.
  split.
  - intros answers fb Hfb.
    apply per_question_feedback_entries in Hfb as (cis & Hcis & Hentries).
    apply Forall_lookup. intros j f Hf.
    destruct (Forall2_lookup_r _ _ _ _ _ Hentries Hf) as ([k q] & Hp & Hentry).
    apply lookup_enumerate_from in Hp as [Hk Hq]. cbn in Hk, Hq. subst k.
    destruct Hentry as (_ & Hci & Hcorrect & _ & _ & _ & Hsc). cbn in Hci, Hsc.
    apply index_of_nat in Hci.
    destruct (Forall2_lookup_l _ _ _ _ _ Hcis Hq) as (ci & Hci' & Hok).
    assert (ci = correct_index f) as -> by congruence.
    destruct (proj1 (Forall_lookup _ _) QUESTIONS_top_option _ _ Hq)
      as (k & Hk & Htop).
    assert (k = correct_index f) as -> by congruence.
    pose proof (proj1 (Forall_lookup _ _) QUESTIONS_scored _ _ Hq) as Hne.
    destruct (correct_index_of_spec q Hne) as (k' & Hk' & Hk0 & m & Hm & _).
    assert (k' = correct_index f) as -> by congruence.
    pose proof (proj1 (Forall_lookup _ _) QUESTIONS_four _ _ Hq) as [_ Hfour].
    apply lookup_lt_Some in Hm. unfold len in Hfour.
    specialize (Htop _ _ Hsc).
    rewrite Hcorrect, bool_decide_eq_true. split.
    + intros Heq. split; [lia|]. apply Htop. by left.
    + intros [Hpos [?|?]%Htop]; [done|lia].
  - eexists. split; [vm_compute; reflexivity|]. split; [reflexivity|].
    repeat constructor.
Qed.

(** ** The roadmap, further *)

Lemma gemini_request_authorization (host : Host) (key : option string)
    (user_name : string) (total_score : Z) (per_q : list PerQuestion) :
  authorization (gemini_request host key user_name total_score per_q)
    = Some ("Bearer " +:+ default "" key) /\
  endpoint (gemini_request host key user_name total_score per_q)
    = "https://api.generativeai.example/v1/generate" /\
  timeout (gemini_request host key user_name total_score per_q) = 20.
Proof. unfold gemini_request. by destruct (strengths_loop _ _ _). Qed.

Lemma truthy_str_Some (k : string) : truthy_str (Some k) = true <-> k <> "".
Proof.
  cbn. destruct (String.eqb_spec k "") as [->|Hne]; cbn; split; try done.
Qed.

(** X12: with a key in hand, a response that passes [raise_for_status] but
    whose body is not JSON, or is JSON that is not an object, also ends in
    the failure summary; and the body is an object exactly when a text can
    be taken from it. *)
Theorem X12_malformed_response (host : Host) (w : World)
    (api_key : option string) (user_name : string) (total_score : Z)
    (per_q : list PerQuestion) (prediction : option string)
    (r : Response) (e : exn) :
  truthy_str (or_str api_key (getenv w "GEMINI_API_KEY")) = true ->
  requests_post host
    (gemini_request host (or_str api_key (getenv w "GEMINI_API_KEY"))
       user_name total_score per_q) = Ok r ->
  raise_for_status r = Ok () ->
  r_json r = Raise e \/
  (exists resp, r_json r = Ok resp /\ response_text host resp = Raise e) ->
  (generate_roadmap_with_gemini host w api_key user_name total_score per_q
     prediction).1
    = JObj [("summary",
             JStr ("Gemini call failed: " +:+ str_exn e +:+ ". Returning heuristic roadmap."))] /\
  forall resp, (exists e', response_text host resp = Raise e') <->
               (forall fields, resp <> JObj fields).
Proof.
  intros Hkey Hpost Hstatus Hbody. split.
  - rewrite roadmap_with_key by done. cbn [fst].
    rewrite Hpost. cbn [mbind result_bind]. rewrite Hstatus. cbn [mbind result_bind].
    destruct Hbody as [->|(resp & -> & Htext)]; [done|].
    cbn [mbind result_bind]. by rewrite Htext.
  - intros resp. unfold response_text. destruct resp; cbn.
    7: { split; [|intros H; by destruct (H fields)].
         intros [e' H]. destruct (truthy _); [done|].
         by destruct (truthy _). }
    all: split; [done|eauto].
Qed.

Lemma X12_malformed_response_witness :
  (generate_roadmap_with_gemini (answering_host (JArr [])) empty_world
     (Some "secret") "Ada" 150 [] None).1
    = JObj [("summary",
             JStr ("Gemini call failed: "
                   +:+ str_exn (AttributeError "'list' object has no attribute 'get'")
                   +:+ ". Returning heuristic roadmap."))] /\
  forall resp,
    (exists e', response_text (answering_host (JArr [])) resp = Raise e') <->
    (forall fields, resp <> JObj fields).
Proof.
  apply (X12_malformed_response (answering_host (JArr [])) empty_world
           (Some "secret") "Ada" 150 [] None
           {| raise_for_status := Ok (); r_json := Ok (JArr []) |}
           (AttributeError "'list' object has no attribute 'get'"));
    [reflexivity|reflexivity|reflexivity|].
  right. exists (JArr []). split; reflexivity.
Defined.

(** X13: the key sent to the service is the per-request key whenever that
    one is a non-empty string, whatever the environment holds; the key of
    the environment is sent only when the per-request key is missing or
    empty. *)
Theorem X13_key_precedence (host : Host) (w : World) (user_name : string)
    (total_score : Z) (per_q : list PerQuestion) (prediction : option string) :
  (forall k, k <> "" ->
     exists req,
       posted (generate_roadmap_with_gemini host w (Some k) user_name
                 total_score per_q prediction).2 = posted w ++ [req] /\
       authorization req = Some ("Bearer " +:+ k)) /\
  (forall api_key k, truthy_str api_key = false ->
     getenv w "GEMINI_API_KEY" = Some k -> k <> "" ->
     exists req,
       posted (generate_roadmap_with_gemini host w api_key user_name
                 total_score per_q prediction).2 = posted w ++ [req] /\
       authorization req = Some ("Bearer " +:+ k)).
Proof.
  split.
  - intros k Hk%truthy_str_Some.
    assert (or_str (Some k) (getenv w "GEMINI_API_KEY") = Some k) as Hor
      by (unfold or_str; by rewrite Hk).
    rewrite roadmap_with_key by (by rewrite Hor). rewrite Hor. cbn [snd log_post posted].
    eexists. split; [reflexivity|]. apply gemini_request_authorization.
  - intros api_key k Hfalse Henv Hk%truthy_str_Some.
    assert (or_str api_key (getenv w "GEMINI_API_KEY") = Some k) as Hor
      by (unfold or_str; by rewrite Hfalse).
    rewrite roadmap_with_key by (by rewrite Hor). rewrite Hor. cbn [snd log_post posted].
    eexists. split; [reflexivity|]. apply gemini_request_authorization.
Qed.

(** X14: one call sends at most one request: none when no key is
    configured, and exactly one, to the fixed endpoint with a timeout of 20,
    when a key is, whatever the service does with it; the environment, the
    console and the results table are left as they were. *)
Theorem X14_at_most_one_request (host : Host) (w : World)
    (api_key : option string) (user_name : string) (total_score : Z)
    (per_q : list PerQuestion) (prediction : option string) :
  environ (generate_roadmap_with_gemini host w api_key user_name total_score
             per_q prediction).2 = environ w /\
  stdout (generate_roadmap_with_gemini host w api_key user_name total_score
            per_q prediction).2 = stdout w /\
  results (generate_roadmap_with_gemini host w api_key user_name total_score
             per_q prediction).2 = results w /\
  (truthy_str (or_str api_key (getenv w "GEMINI_API_KEY")) = false ->
   posted (generate_roadmap_with_gemini host w api_key user_name total_score
             per_q prediction).2 = posted w) /\
  (truthy_str (or_str api_key (getenv w "GEMINI_API_KEY")) = true ->
   exists req,
     posted (generate_roadmap_with_gemini host w api_key user_name total_score
               per_q prediction).2 = posted w ++ [req] /\
     endpoint req = "https://api.generativeai.example/v1/generate" /\
     timeout req = 20).
Proof.
  pose proof (roadmap_frame host w api_key user_name total_score per_q prediction)
    as (Henv & Hout & Hres).
  split; [done|]. split; [done|]. split; [done|]. split.
  - intros H. by rewrite roadmap_without_key.
  - intros H. rewrite roadmap_with_key by done. cbn [snd log_post posted].
    eexists. split; [reflexivity|].
    by destruct (gemini_request_authorization host
                   (or_str api_key (getenv w "GEMINI_API_KEY"))
                   user_name total_score per_q) as (_ & ? & ?).
Qed.

(** X15: when the response object has neither a usable [output_text] nor a
    usable [result], the whole object is serialised and parsed again; if
    parsing undoes serialising, the roadmap returned is the response object
    itself. *)
Theorem X15_whole_body_round_trip (host : Host) (w : World)
    (api_key : option string) (user_name : string) (total_score : Z)
    (per_q : list PerQuestion) (prediction : option string)
    (r : Response) (fields : list (string * json)) :
  truthy_str (or_str api_key (getenv w "GEMINI_API_KEY")) = true ->
  requests_post host
    (gemini_request host (or_str api_key (getenv w "GEMINI_API_KEY"))
       user_name total_score per_q) = Ok r ->
  raise_for_status r = Ok () ->
  r_json r = Ok (JObj fields) ->
  truthy (default JNull (assoc "output_text" fields)) = false ->
  truthy (default JNull (assoc "result" fields)) = false ->
  json_loads host (json_dumps host (JObj fields)) = Ok (JObj fields) ->
  (generate_roadmap_with_gemini host w api_key user_name total_score per_q
     prediction).1 = JObj fields.
Proof.
  intros Hkey Hpost Hstatus Hjson Ha Hb Hround.
  rewrite roadmap_with_key by done. cbn [fst].
  rewrite Hpost. cbn. rewrite Hstatus. cbn. rewrite Hjson. cbn.
  unfold response_text. cbn. rewrite Ha, Hb. cbn. by rewrite Hround.
Qed.

Lemma X15_whole_body_round_trip_witness :
  (generate_roadmap_with_gemini (answering_host (JObj [])) empty_world
     (Some "secret") "Ada" 150 [] None).1 = JObj [].
Proof.
  apply (X15_whole_body_round_trip (answering_host (JObj [])) empty_world
           (Some "secret") "Ada" 150 [] None
           {| raise_for_status := Ok (); r_json := Ok (JObj []) |} []);
    reflexivity.
Defined.

Lemma strengths_loop_filter (items : list PerQuestion) :
  forall strengths weaknesses,
    strengths_loop items strengths weaknesses
      = (strengths ++ (pq_question <$> filter (fun r => 8 <= pq_score r) items),
         weaknesses ++ (pq_question <$> filter (fun r => pq_score r <= 3) items)).
Proof.
  induction items as [|r items IH]; intros strengths weaknesses.
  - cbn. by rewrite !app_nil_r.
  - cbn [strengths_loop]. rewrite !filter_cons.
    destruct (Z.leb_spec 8 (pq_score r)) as [H8|H8].
    + rewrite IH. rewrite decide_True by done. rewrite decide_False by lia.
      cbn. by rewrite <- app_assoc.
    + destruct (Z.leb_spec (pq_score r) 3) as [H3|H3]; rewrite IH.
      * rewrite decide_False by lia. rewrite decide_True by done.
        cbn. by rewrite <- app_assoc.
      * rewrite decide_False by lia. by rewrite decide_False by lia.
Qed.

(** X16: the strengths are the questions of the records with 8 points or
    more and the weaknesses those of the records with 3 points or fewer,
    each in the order of the records; no record feeds both lists, and a
    record with 4 to 7 points feeds neither. *)
Theorem X16_strengths_and_weaknesses (items : list PerQuestion) :
  strengths_loop items [] []
    = (pq_question <$> filter (fun r => 8 <= pq_score r) items,
       pq_question <$> filter (fun r => pq_score r <= 3) items) /\
  (length (strengths_loop items [] []).1 + length (strengths_loop items [] []).2
     + length (filter (fun r => (4 <= pq_score r <= 7)%Z) items)
   = length items)%nat.
Proof.
  rewrite strengths_loop_filter. cbn [app fst snd]. split; [done|].
  rewrite !length_fmap. induction items as [|r items IH]; [done|].
  rewrite !filter_cons. cbn [length].
  destruct (decide (8 <= pq_score r)); destruct (decide (pq_score r <= 3));
    destruct (decide (4 <= pq_score r <= 7)); cbn [length]; lia.
Qed.

(** ** auth.py: passwords *)

Lemma length_substring_0 (n : nat) (s : string) :
  String.length (String.substring 0 n s) = Nat.min n (String.length s).
Proof.
  revert s. induction n as [|n IH]; intros [|c s]; cbn; try done.
  by rewrite IH.
Qed.

(** X17: provided decoding with [errors='ignore'] and encoding again never
    makes a byte string longer, what is handed to bcrypt never takes more
    than 72 bytes; a password that already fits is handed over unchanged,
    and truncating twice is truncating once. *)
Theorem X17_truncation_fits (lib : AuthLib) (password : string) :
  (forall bs, (String.length (utf8_encode lib (utf8_decode lib bs))
               <= String.length bs)%nat) ->
  (String.length (utf8_encode lib
     (_truncate_password_for_bcrypt lib (Some password))) <= 72)%nat /\
  ((String.length (utf8_encode lib password) <= 72)%nat ->
   _truncate_password_for_bcrypt lib (Some password) = password) /\
  _truncate_password_for_bcrypt lib
    (Some (_truncate_password_for_bcrypt lib (Some password)))
    = _truncate_password_for_bcrypt lib (Some password).
Proof.
  intros Hcodec.
  assert ((String.length (utf8_encode lib
             (_truncate_password_for_bcrypt lib (Some password))) <= 72)%nat)
    as Hfit.
  { unfold _truncate_password_for_bcrypt, BCRYPT_MAX_BYTES.
    destruct (Nat.leb_spec (String.length (utf8_encode lib password)) 72);
      [done|].
    etrans; [apply Hcodec|]. rewrite length_substring_0. lia. }
  split; [done|]. split.
  - intros H. unfold _truncate_password_for_bcrypt, BCRYPT_MAX_BYTES.
    by destruct (Nat.leb_spec (String.length (utf8_encode lib password)) 72);
      [|lia].
  - unfold _truncate_password_for_bcrypt at 1. unfold BCRYPT_MAX_BYTES.
    by destruct (Nat.leb_spec
                   (String.length (utf8_encode lib
                      (_truncate_password_for_bcrypt lib (Some password)))) 72);
      [|lia].
Qed.

Lemma X17_truncation_fits_witness :
  (String.length (utf8_encode ascii_lib
     (_truncate_password_for_bcrypt ascii_lib (Some long_password_a))) <= 72)%nat /\
  ((String.length (utf8_encode ascii_lib long_password_a) <= 72)%nat ->
   _truncate_password_for_bcrypt ascii_lib (Some long_password_a)
     = long_password_a) /\
  _truncate_password_for_bcrypt ascii_lib
    (Some (_truncate_password_for_bcrypt ascii_lib (Some long_password_a)))
    = _truncate_password_for_bcrypt ascii_lib (Some long_password_a).
Proof.
  apply (X17_truncation_fits ascii_lib long_password_a).
  intros bs. simpl. lia.
Defined.

(** X18: two passwords longer than 72 bytes whose first 72 bytes agree are
    one password to this module: they verify alike against every hash and
    hash alike. *)
Theorem X18_long_passwords_collide (lib : AuthLib) (p1 p2 : string) :
  (72 < String.length (utf8_encode lib p1))%nat ->
  (72 < String.length (utf8_encode lib p2))%nat ->
  String.substring 0 72 (utf8_encode lib p1)
    = String.substring 0 72 (utf8_encode lib p2) ->
  (forall hashed, verify_password lib p1 hashed = verify_password lib p2 hashed) /\
  (forall calls, get_password_hash lib calls p1 = get_password_hash lib calls p2).
Proof.
  intros H1 H2 Hprefix.
  assert (_truncate_password_for_bcrypt lib (Some p1)
          = _truncate_password_for_bcrypt lib (Some p2)) as Heq.
  { unfold _truncate_password_for_bcrypt, BCRYPT_MAX_BYTES.
    destruct (Nat.leb_spec (String.length (utf8_encode lib p1)) 72); [lia|].
    destruct (Nat.leb_spec (String.length (utf8_encode lib p2)) 72); [lia|].
    by rewrite Hprefix. }
  unfold verify_password, get_password_hash. by rewrite Heq.
Qed.

Lemma X18_long_passwords_collide_witness :
  long_password_a <> long_password_b /\
  (forall hashed, verify_password ascii_lib long_password_a hashed
                  = verify_password ascii_lib long_password_b hashed) /\
  (forall calls, get_password_hash ascii_lib calls long_password_a
                 = get_password_hash ascii_lib calls long_password_b).
Proof.
  split; [by vm_compute|].
  apply (X18_long_passwords_collide ascii_lib long_password_a long_password_b).
  - vm_compute. lia.
  - vm_compute. lia.
  - vm_compute. reflexivity.
Defined.

(** X19: if the hashing library accepts the password it hashed, then a
    stored hash is verified by the password that made it, and by every
    password with the same truncation. *)
Theorem X19_hash_then_verify (lib : AuthLib) (calls : nat)
    (password other hashed : string) :
  (forall n p h, pwd_hash lib n p = Ok h -> pwd_verify lib p h = Ok true) ->
  get_password_hash lib calls password = Ok hashed ->
  _truncate_password_for_bcrypt lib (Some other)
    = _truncate_password_for_bcrypt lib (Some password) ->
  verify_password lib password hashed = Ok true /\
  verify_password lib other hashed = Ok true.
Proof.
  intros Hlib Hhash Hsame. unfold verify_password, get_password_hash in *.
  rewrite Hsame. split; by eapply Hlib.
Qed.

Lemma ascii_lib_verifies (n : nat) (p h : string) :
  pwd_hash ascii_lib n p = Ok h -> pwd_verify ascii_lib p h = Ok true.
Proof. cbn. intros [= <-]. by rewrite bool_decide_eq_true_2. Qed.

Lemma X19_hash_then_verify_witness :
  verify_password ascii_lib "s3cret" "$2b$s3cret" = Ok true /\
  verify_password ascii_lib "s3cret" "$2b$s3cret" = Ok true.
Proof.
  apply (X19_hash_then_verify ascii_lib 0 "s3cret" "s3cret" "$2b$s3cret").
  - exact ascii_lib_verifies.
  - reflexivity.
  - reflexivity.
Defined.

(** ** auth.py: tokens *)

Lemma assoc_dict_update (k : string) (v : json) (d : list (string * json)) :
  assoc k (dict_update k v d) = Some v /\
  forall k', k' <> k -> assoc k' (dict_update k v d) = assoc k' d.
Proof.
  induction d as [|[k0 v0] d [IH1 IH2]]; cbn.
  - rewrite String.eqb_refl. split; [done|]. intros k' Hk'.
    by destruct (String.eqb_spec k' k).
  - destruct (String.eqb_spec k k0) as [->|Hne]; cbn.
    + rewrite String.eqb_refl. split; [done|]. intros k' Hk'.
      by destruct (String.eqb_spec k' k0).
    + destruct (String.eqb_spec k k0) as [?|_]; [done|]. split; [done|].
      intros k' Hk'. destruct (String.eqb_spec k' k0); [done|]. by apply IH2.
Qed.

(** X20: a token that is issued encodes, under the given key and HS256,
    the claims of [data] with [exp] set to the expiry: an [exp] already in
    [data] is replaced and every other claim is kept.  The lifetime is the
    given number of minutes, except that none and 0 both mean one day. *)
Theorem X20_token_claims (lib : AuthLib) (key : string) (now : Z)
    (data : list (string * json)) (expires_delta : option Z) (token : string) :
  create_access_token lib key now data expires_delta = Ok token ->
  (exists expire claims,
     expiry_after lib now
       (match expires_delta with
        | Some m => if decide (m = 0) then 1440 else m
        | None => 1440
        end) = Ok expire /\
     jwt_encode lib (JObj claims) key "HS256" = Ok token /\
     assoc "exp" claims = Some expire /\
     forall k, k <> "exp" -> assoc k claims = assoc k data) /\
  create_access_token lib key now data (Some 0)
    = create_access_token lib key now data None.
Proof.
  unfold create_access_token. intros H. split; [|done].
  assert (minutes_or_default expires_delta
          = match expires_delta with
            | Some m => if decide (m = 0) then 1440 else m
            | None => 1440
            end) as <-.
  { destruct expires_delta as [m|]; [|done]. cbn.
    destruct (Z.eqb_spec m 0); by destruct (decide (m = 0)). }
  destruct (expiry_after lib now _) as [expire|]; [|done]. cbn in H.
  exists expire, (dict_update "exp" expire data). split; [done|]. split; [done|].
  apply assoc_dict_update.
Qed.

Lemma X20_token_claims_witness :
  (exists expire claims,
     expiry_after ascii_lib 0 1440 = Ok expire /\
     jwt_encode ascii_lib (JObj claims) "k" "HS256" = Ok "1" /\
     assoc "exp" claims = Some expire /\
     forall k, k <> "exp" ->
       assoc k claims = assoc k (token_claims sample_user)) /\
  create_access_token ascii_lib "k" 0 (token_claims sample_user) (Some 0)
    = create_access_token ascii_lib "k" 0 (token_claims sample_user) None.
Proof.
  apply (X20_token_claims ascii_lib "k" 0 (token_claims sample_user) None "1").
  reflexivity.
Defined.

(** ** main.py: who is calling *)

Lemma str_partition_at (c : Ascii.ascii) (head tail : string) :
  has_char c head = false ->
  str_partition c (head +:+ String c tail) = (head, String c EmptyString, tail).
Proof.
  induction head as [|x head IH].
  - intros _. change ("" +:+ String c tail) with (String c tail).
    cbn [str_partition]. by rewrite Ascii.eqb_refl.
  - change (String x head +:+ String c tail)
      with (String x (head +:+ String c tail)).
    cbn [str_partition has_char].
    destruct (Ascii.eqb x c); [done|]. cbn [orb]. intros H. by rewrite IH.
Qed.

Lemma get_user_Some (users : list Account) (id : Z) (a : Account) :
  get_user users id = Some a -> a ∈ users /\ user_id (account a) = id.
Proof.
  unfold get_user. destruct (list_find _ users) as [[i x]|] eqn:E; [|done].
  cbn. intros [= <-]. apply list_find_Some in E as (Hx & Hid & _).
  split; [|done]. apply list_elem_of_lookup. eauto.
Qed.

(** X21: a request with no [Authorization] header, or an empty one, is
    refused with 401; and a user that is returned is a row of the table
    whose key is the number read from the [sub] claim of the token, the
    token being what follows the first space of the header. *)
Theorem X21_current_user_is_token_subject (lib : AuthLib) (key : string)
    (site : Site) :
  get_current_user lib key site None
    = Raise (HTTPException 401 "Missing authorization header") /\
  get_current_user lib key site (Some "")
    = Raise (HTTPException 401 "Missing authorization header") /\
  forall header u,
    get_current_user lib key site (Some header) = Ok u ->
    exists payload sub a,
      jwt_decode lib (site_now site) (str_partition space header).2 key ["HS256"]
        = Decoded payload /\
      dict_get payload "sub" = Ok sub /\
      py_int lib sub = Ok (user_id u) /\
      a ∈ site_users site /\ account a = u.
Proof.
  split; [done|]. split; [done|]. intros header u. unfold get_current_user.
  destruct (negb _); [done|]. change (default "" (Some header)) with header.
  destruct (str_partition space header) as [[scheme sep] token]. cbn [snd].
  unfold decode_access_token, ALGORITHM.
  destruct (jwt_decode _ _ _ _ _) as [payload| |]; cbn; [|done..].
  destruct (negb _); [done|].
  destruct (dict_get payload "sub") as [sub|] eqn:Hsub; cbn; [|done].
  destruct (py_int lib sub) as [id|] eqn:Hid; cbn; [|done].
  destruct (get_user _ id) as [a|] eqn:Ha; [|done].
  intros [= <-]. apply get_user_Some in Ha as [Hin <-].
  exists payload, sub, a. by repeat split.
Qed.

(** X22: the word before the first space of the header is not looked at:
    two headers that carry the same token after different words, or after
    none, are answered alike. *)
Theorem X22_scheme_is_ignored (lib : AuthLib) (key : string) (site : Site)
    (scheme1 scheme2 token : string) :
  has_char space scheme1 = false ->
  has_char space scheme2 = false ->
  get_current_user lib key site (Some (scheme1 +:+ " " +:+ token))
    = get_current_user lib key site (Some (scheme2 +:+ " " +:+ token)).
Proof.
  intros H1 H2. unfold get_current_user.
  assert (forall s, truthy_str (Some (s +:+ " " +:+ token)) = true) as Htruthy.
  { intros s. apply truthy_str_Some. by destruct s. }
  rewrite !Htruthy. cbn [negb].
  change (default "" (Some (scheme1 +:+ " " +:+ token)))
    with (scheme1 +:+ String space token).
  change (default "" (Some (scheme2 +:+ " " +:+ token)))
    with (scheme2 +:+ String space token).
  by rewrite !str_partition_at.
Qed.

Lemma X22_scheme_is_ignored_witness :
  get_current_user ascii_lib "k" empty_site (Some ("Bearer" +:+ " " +:+ "1"))
    = get_current_user ascii_lib "k" empty_site (Some ("Basic" +:+ " " +:+ "1")).
Proof.
  apply (X22_scheme_is_ignored ascii_lib "k" empty_site "Bearer" "Basic" "1");
    reflexivity.
Defined.

(** ** main.py: registering and logging in *)

Lemma first_by_email_Some (users : list Account) (email : string) (a : Account) :
  first_by_email users email = Some a ->
  a ∈ users /\ user_email (account a) = email.
Proof.
  unfold first_by_email. destruct (list_find _ users) as [[i x]|] eqn:E; [|done].
  cbn. intros [= <-]. apply list_find_Some in E as (Hx & He & _).
  split; [|done]. apply list_elem_of_lookup. eauto.
Qed.

Lemma first_by_email_None (users : list Account) (email : string) :
  first_by_email users email = None <-> email ∉ emails users.
Proof.
  unfold first_by_email, emails.
  destruct (list_find _ users) as [[i x]|] eqn:E; cbn.
  - split; [done|]. intros Hnot. exfalso. apply Hnot.
    apply list_find_Some in E as (Hx & He & _).
    apply list_elem_of_fmap. exists x. split; [done|].
    apply list_elem_of_lookup. eauto.
  - split; [|done]. intros _ (a & -> & Ha)%list_elem_of_fmap.
    apply list_find_None in E.
    by apply (proj1 (Forall_forall _ _) E a Ha).
Qed.

Lemma first_by_email_new (users : list Account) (a : Account) :
  user_email (account a) ∉ emails users ->
  first_by_email (users ++ [a]) (user_email (account a)) = Some a.
Proof.
  intros Hnew. unfold first_by_email.
  destruct (list_find _ (users ++ [a])) as [[i x]|] eqn:E; cbn.
  - apply list_find_Some in E as (Hx & He & Hbefore). f_equal.
    apply lookup_app_Some in Hx as [Hx|[_ Hx]].
    + exfalso. apply Hnew. unfold emails. apply list_elem_of_fmap.
      exists x. split; [done|]. apply list_elem_of_lookup. eauto.
    + apply list_lookup_singleton_Some in Hx as [_ <-]. done.
  - apply list_find_None in E. apply Forall_app in E as [_ E].
    inversion E as [|? ? Hne _]. by destruct Hne.
Qed.

Lemma next_id_above (users : list Account) :
  Forall (fun id => id < next_id users) (ids users).
Proof.
  unfold next_id, ids. induction users as [|a users IH]; cbn; [constructor|].
  constructor; [lia|]. eapply Forall_impl; [exact IH|]. cbn. lia.
Qed.

Lemma next_id_fresh (users : list Account) : next_id users ∉ ids users.
Proof.
  intros Hin.
  pose proof (proj1 (Forall_forall _ _) (next_id_above users) _ Hin) as H.
  cbv beta in H. lia.
Qed.

(** X23: registering adds at most one row, at the end, with a key that no
    row had; rows already there are kept as they were; an email that is
    already in the table is refused and nothing changes; and if no two rows
    shared an email, or a key, before, none do after. *)
Theorem X23_register_keeps_table_sound (lib : AuthLib) (key : string)
    (payload : RegisterPayload) (site : Site) :
  ((register lib key payload site).2 = site \/
   exists hashed,
     site_users (register lib key payload site).2
       = site_users site ++
           [{| account := {| user_id := next_id (site_users site);
                             user_name := reg_name payload;
                             user_email := reg_email payload |};
               hashed_password := hashed |}] /\
     get_password_hash lib (site_hashes site) (reg_password payload) = Ok hashed /\
     (next_id (site_users site) ∉ ids (site_users site)) /\
     (reg_email payload ∉ emails (site_users site))) /\
  (reg_email payload ∈ emails (site_users site) ->
   register lib key payload site
     = (Raise (HTTPException 400 "Email already registered"), site)) /\
  (NoDup (emails (site_users site)) ->
   NoDup (emails (site_users (register lib key payload site).2))) /\
  (NoDup (ids (site_users site)) ->
   NoDup (ids (site_users (register lib key payload site).2))).
Proof.
  unfold register.
  destruct (first_by_email (site_users site) (reg_email payload)) as [a|] eqn:Hfind.
  { cbn. split; [by left|]. by split. }
  apply first_by_email_None in Hfind.
  destruct (get_password_hash lib (site_hashes site) (reg_password payload))
    as [hashed|e] eqn:Hhash.
  2: { cbn. split; [by left|]. by split. }
  cbn [snd site_users].
  pose proof (next_id_fresh (site_users site)) as Hfresh.
  split; [right; eauto|]. split; [done|]. split.
  - intros Hnd. unfold emails in *. rewrite fmap_app. cbn.
    apply NoDup_app. split; [done|]. split; [|apply NoDup_singleton].
    intros e He ->%list_elem_of_singleton. done.
  - intros Hnd. unfold ids in *. rewrite fmap_app. cbn.
    apply NoDup_app. split; [done|]. split; [|apply NoDup_singleton].
    intros e He ->%list_elem_of_singleton. done.
Qed.

(** X24: after a registration that answered, the same email and password
    log in at any later time: the password check passes, and the answer
    names the registered user; only issuing the token can still fail.
    This holds if the hashing library accepts the password it hashed. *)
Theorem X24_register_then_login (lib : AuthLib) (key : string)
    (payload : RegisterPayload) (site site' : Site) (resp : AuthResponse)
    (later : Z) (hashes : nat) :
  (forall n p h, pwd_hash lib n p = Ok h -> pwd_verify lib p h = Ok true) ->
  register lib key payload site = (Ok resp, site') ->
  login lib key
    {| login_email := reg_email payload; login_password := reg_password payload |}
    {| site_users := site_users site'; site_hashes := hashes; site_now := later |}
    = (token ← create_access_token lib key later (token_claims (auth_user resp)) None;
       Ok {| access_token := token; token_type := "bearer";
             auth_user := auth_user resp |}).
Proof.
  intros Hlib. unfold register.
  destruct (first_by_email (site_users site) (reg_email payload)) as [a|] eqn:Hfind;
    [discriminate|].
  apply first_by_email_None in Hfind.
  destruct (get_password_hash lib (site_hashes site) (reg_password payload))
    as [hashed|e] eqn:Hhash; [|discriminate].
  cbn [site_now].
  destruct (create_access_token lib key (site_now site) _ None) as [token|];
    [|discriminate].
  cbn [mbind result_bind]. intros [= <- <-]. unfold login. cbn [site_users login_email login_password auth_user].
  pose proof (first_by_email_new (site_users site)
                {| account := {| user_id := next_id (site_users site);
                                 user_name := reg_name payload;
                                 user_email := reg_email payload |};
                   hashed_password := hashed |} Hfind) as Hnew.
  cbn [account user_email] in Hnew. rewrite Hnew. cbn [hashed_password account].
  assert (verify_password lib (reg_password payload) hashed = Ok true) as ->.
  { unfold verify_password, get_password_hash in *. by eapply Hlib. }
  done.
Qed.

Lemma X24_register_then_login_witness :
  login ascii_lib "k"
    {| login_email := reg_email sample_registration;
       login_password := reg_password sample_registration |}
    {| site_users := site_users sample_site; site_hashes := 7; site_now := 99 |}
    = (token ← create_access_token ascii_lib "k" 99
                 (token_claims (account sample_account)) None;
       Ok {| access_token := token; token_type := "bearer";
             auth_user := account sample_account |}).
Proof.
  apply (X24_register_then_login ascii_lib "k" sample_registration empty_site
           {| site_users := [sample_account]; site_hashes := 1; site_now := 0 |}
           {| access_token := "1"; token_type := "bearer";
              auth_user := account sample_account |} 99 7).
  - exact ascii_lib_verifies.
  - vm_compute. reflexivity.
Defined.

Lemma login_Ok (lib : AuthLib) (key : string) (payload : LoginPayload)
    (site : Site) (resp : AuthResponse) :
  login lib key payload site = Ok resp ->
  exists a, a ∈ site_users site /\
    account a = auth_user resp /\
    user_email (auth_user resp) = login_email payload /\
    verify_password lib (login_password payload) (hashed_password a) = Ok true /\
    token_type resp = "bearer".
Proof.
  unfold login.
  destruct (first_by_email _ _) as [a|] eqn:Hfind; [|discriminate].
  apply first_by_email_Some in Hfind as [Hin Hemail].
  destruct (verify_password _ _ _) as [[|]|] eqn:Hv; cbn; [|discriminate..].
  destruct (create_access_token _ _ _ _ _) as [token|]; cbn; [|discriminate].
  intros [= <-]. exists a. by repeat split.
Qed.

(** X25: logging in answers only for a row of the table that has the given
    email and whose hash the given password verifies; an unknown email and
    a wrong password are refused with one and the same 401. *)
Theorem X25_login_checks (lib : AuthLib) (key : string) (payload : LoginPayload)
    (site : Site) :
  (login_email payload ∉ emails (site_users site) ->
   login lib key payload site = Raise (HTTPException 401 "Invalid credentials")) /\
  (forall a,
     first_by_email (site_users site) (login_email payload) = Some a ->
     verify_password lib (login_password payload) (hashed_password a) = Ok false ->
     login lib key payload site = Raise (HTTPException 401 "Invalid credentials")) /\
  (forall resp, login lib key payload site = Ok resp ->
     exists a, a ∈ site_users site /\
       account a = auth_user resp /\
       user_email (auth_user resp) = login_email payload /\
       verify_password lib (login_password payload) (hashed_password a) = Ok true /\
       token_type resp = "bearer").
Proof.
  split; [|split].
  - unfold login. intros Hnot%first_by_email_None. by rewrite Hnot.
  - unfold login. intros a -> ->. done.
  - apply login_Ok.
Qed.

Lemma get_user_unique (users : list Account) (a : Account) :
  NoDup (ids users) -> a ∈ users ->
  get_user users (user_id (account a)) = Some a.
Proof.
  intros Hnd Hin. unfold get_user.
  destruct (list_find _ users) as [[i x]|] eqn:E; cbn.
  - apply list_find_Some in E as (Hx & Hid & _). f_equal.
    apply list_elem_of_lookup in Hin as [j Hj].
    assert (ids users !! i = Some (user_id (account x))) as Hi
      by (unfold ids; by rewrite list_lookup_fmap, Hx).
    assert (ids users !! j = Some (user_id (account a))) as Hj'
      by (unfold ids; by rewrite list_lookup_fmap, Hj).
    rewrite Hid in Hi.
    pose proof (NoDup_lookup _ _ _ _ Hnd Hi Hj') as ->. congruence.
  - apply list_find_None in E.
    by pose proof (proj1 (Forall_forall _ _) E a Hin).
Qed.

(** X26: the token that a login returns names the user who logged in: when
    it is sent back after any word and a space, and the library decodes it
    to claims whose [sub] is the one that was issued and reads that [sub]
    back as the user's key, the caller is recognised as that same user.
    Keys are assumed not to repeat in the table. *)
Theorem X26_login_token_authenticates (lib : AuthLib) (key : string)
    (payload : LoginPayload) (site : Site) (resp : AuthResponse)
    (later : Z) (hashes : nat) (scheme : string) (claims : json) :
  NoDup (ids (site_users site)) ->
  login lib key payload site = Ok resp ->
  has_char space scheme = false ->
  jwt_decode lib later (access_token resp) key ["HS256"] = Decoded claims ->
  dict_get claims "sub" = Ok (JStr (pretty (user_id (auth_user resp)))) ->
  py_int lib (JStr (pretty (user_id (auth_user resp))))
    = Ok (user_id (auth_user resp)) ->
  get_current_user lib key
    {| site_users := site_users site; site_hashes := hashes; site_now := later |}
    (Some (scheme +:+ " " +:+ access_token resp))
    = Ok (auth_user resp).
Proof.
  intros Hnd Hlogin Hscheme Hdecode Hsub Hint.
  destruct (login_Ok lib key payload site resp Hlogin) as (a & Hin & Ha & _).
  unfold get_current_user.
  assert (truthy_str (Some (scheme +:+ " " +:+ access_token resp)) = true) as ->
    by (apply truthy_str_Some; by destruct scheme).
  cbn [negb].
  change (default "" (Some (scheme +:+ " " +:+ access_token resp)))
    with (scheme +:+ String space (access_token resp)).
  rewrite str_partition_at by done.
  unfold decode_access_token, ALGORITHM. cbn [site_now site_users].
  rewrite Hdecode. cbn [mbind result_bind default].
  change (id claims) with claims.
  assert (truthy claims = true) as ->.
  { destruct claims as [| | | | | |fields]; try discriminate.
    cbn in Hsub. by destruct fields. }
  cbn [negb]. rewrite Hsub. cbn [mbind result_bind]. rewrite Hint.
  cbn [mbind result_bind]. rewrite <- Ha.
  by rewrite (get_user_unique _ a Hnd Hin).
Qed.

Lemma X26_login_token_authenticates_witness :
  get_current_user ascii_lib "k"
    {| site_users := site_users sample_site; site_hashes := 5; site_now := 7200 |}
    (Some ("Bearer" +:+ " " +:+ "1"))
    = Ok (account sample_account).
Proof.
  apply (X26_login_token_authenticates ascii_lib "k" sample_login sample_site
           {| access_token := "1"; token_type := "bearer";
              auth_user := account sample_account |}
           7200 5 "Bearer" (JObj [("sub", JStr "1")])).
  - apply NoDup_singleton.
  - vm_compute. reflexivity.
  - reflexivity.
  - reflexivity.
  - vm_compute. reflexivity.
  - vm_compute. reflexivity.
Defined.

(** X27: registering stores the row before it issues the token: when the
    hashing fails nothing is stored, but when the email is new, the hash is
    made and issuing the token fails, the request fails and the user is in
    the table all the same, so that a second attempt is refused as a
    duplicate. *)
Theorem X27_register_fails_after_storing (lib : AuthLib) (key : string)
    (payload : RegisterPayload) (site : Site) (hashed : string) (e : exn) :
  reg_email payload ∉ emails (site_users site) ->
  get_password_hash lib (site_hashes site) (reg_password payload) = Ok hashed ->
  create_access_token lib key (site_now site)
    (token_claims {| user_id := next_id (site_users site);
                     user_name := reg_name payload;
                     user_email := reg_email payload |}) None = Raise e ->
  (register lib key payload site).1 = Raise e /\
  site_users (register lib key payload site).2
    = site_users site ++
        [{| account := {| user_id := next_id (site_users site);
                          user_name := reg_name payload;
                          user_email := reg_email payload |};
            hashed_password := hashed |}] /\
  register lib key payload (register lib key payload site).2
    = (Raise (HTTPException 400 "Email already registered"),
       (register lib key payload site).2).
Proof.
  intros Hnew Hhash Htoken.
  assert (register lib key payload site
          = (Raise e,
             {| site_users := site_users site ++
                  [{| account := {| user_id := next_id (site_users site);
                                    user_name := reg_name payload;
                                    user_email := reg_email payload |};
                      hashed_password := hashed |}];
                site_hashes := S (site_hashes site);
                site_now := site_now site |})) as ->.
  { unfold register. apply first_by_email_None in Hnew. rewrite Hnew, Hhash.
    cbn [site_now account]. by rewrite Htoken. }
  cbn [fst snd site_users]. split; [done|]. split; [done|].
  unfold register. cbn [site_users].
  pose proof (first_by_email_new (site_users site)
                {| account := {| user_id := next_id (site_users site);
                                 user_name := reg_name payload;
                                 user_email := reg_email payload |};
                   hashed_password := hashed |} Hnew) as Hfound.
  cbn [account user_email] in Hfound. by rewrite Hfound.
Qed.

Lemma X27_register_fails_after_storing_witness :
  (register tokenless_lib "k" sample_registration empty_site).1
    = Raise (LibraryError "no signing backend") /\
  site_users (register tokenless_lib "k" sample_registration empty_site).2
    = site_users empty_site ++
        [{| account := {| user_id := next_id (site_users empty_site);
                          user_name := reg_name sample_registration;
                          user_email := reg_email sample_registration |};
            hashed_password := "$2b$s3cret" |}] /\
  register tokenless_lib "k" sample_registration
    (register tokenless_lib "k" sample_registration empty_site).2
    = (Raise (HTTPException 400 "Email already registered"),
       (register tokenless_lib "k" sample_registration empty_site).2).
Proof.
  apply (X27_register_fails_after_storing tokenless_lib "k" sample_registration
           empty_site "$2b$s3cret" (LibraryError "no signing backend")).
  - vm_compute. by intros ?%elem_of_nil.
  - reflexivity.
  - reflexivity.
Defined.
